(** * Workhorse Monitor 75 kHz driver: frame sieve and protocol handlers

    A shallow embedding of
    [mi/instrument/teledyne/workhorse_monitor_75_khz/driver.py]:

    - Part I models [WorkhorseProtocol.sieve_function], the chunker sieve
      that locates PD0 ensembles and ASCII response blocks in the receive
      buffer.
    - Part II models the protocol handlers ([_is_logging], [_start_logging],
      [_stop_logging], [_update_params], [_set_params] and the state-machine
      handlers built on them) in a state-and-exception monad over an
      abstract instrument. *)

From Stdlib Require Import String Ascii.
From Stdlib Require Import Strings.Byte.
From Stdlib Require Import List Arith Lia Bool Sorted.
Import ListNotations.

Set Implicit Arguments.

(* ===================================================================== *)
(** * Part I: the frame sieve                                             *)
(* ===================================================================== *)

Module Sieve.

(** The receive buffer is a Python 2 byte string. *)
Definition buffer := list byte.

(** A chunk is a pair [(match.start(), match.end())]. *)
Definition chunk := (nat * nat)%type.

(** ** Regular expressions as anchored matchers

    A compiled pattern is represented by its anchored match function:
    [re raw i = Some e] when the pattern matches [raw] starting exactly at
    offset [i] and the match ends at offset [e]. *)
Definition regex := buffer -> nat -> option nat.

(** [pattern.finditer(raw, pos)]: the non-overlapping matches, scanned left
    to right from [pos].  After a match the scan resumes at its end (one
    further for an empty match), otherwise one byte further.  [fuel] bounds
    the number of scan steps; [S (length raw)] is always enough. *)
Fixpoint finditer_loop (re : regex) (raw : buffer) (fuel i : nat) : list chunk :=
  match fuel with
  | 0 => []
  | S fuel' =>
      if length raw <? i then []
      else match re raw i with
           | Some e => (i, e) :: finditer_loop re raw fuel' (if e <=? i then S i else e)
           | None => finditer_loop re raw fuel' (S i)
           end
  end.

Definition finditer (re : regex) (raw : buffer) (pos : nat) : list chunk :=
  finditer_loop re raw (S (length raw)) pos.

(** The two sync bytes [\x7f\x7f] at offset [i]. *)
Definition sync_at (raw : buffer) (i : nat) : bool :=
  match nth_error raw i, nth_error raw (S i) with
  | Some a, Some b => Byte.eqb a x7f && Byte.eqb b x7f
  | _, _ => false
  end.

(** [re.compile(r'\x7f\x7f(.{n})', re.DOTALL)]; with [n = 2] this is the
    pattern [r'\x7f\x7f(..)'] of the outer loop. *)
Definition sync_then (n : nat) : regex :=
  fun raw i =>
    if sync_at raw i && (i + 2 + n <=? length raw) then Some (i + 2 + n) else None.

(** [unpack("H", match.group(1))[0]]: the two bytes after the sync marker
    read as an unsigned short, low byte first (the byte order of the hosts
    the driver runs on). *)
Definition unpack_H (raw : buffer) (start : nat) : nat :=
  match nth_error raw (start + 2), nth_error raw (start + 3) with
  | Some lo, Some hi => Byte.to_nat lo + 256 * Byte.to_nat hi
  | _, _ => 0
  end.

(** The inner loop of the PD0 branch:
    [for match in ADCP_PD0_PARSED_TRUE_MATCHER.finditer(raw_data, outer_pos):
         if outer_pos == inner_pos: return_list.append(...)]. *)
Definition pd0_inner (raw : buffer) (outer_pos : nat) : list chunk :=
  let l := unpack_H raw outer_pos in
  filter (fun m => outer_pos =? fst m) (finditer (sync_then l) raw outer_pos).

(** The PD0 branch: one inner loop per match of [r'\x7f\x7f(..)']. *)
Definition pd0_chunks (raw : buffer) : list chunk :=
  flat_map (fun m => pd0_inner raw (fst m)) (finditer (sync_then 2) raw 0).

(** The entries of [sieve_matchers]. *)
Inductive matcher : Type :=
  | ADCP_PD0_PARSED_REGEX_MATCHER
  | ADCP_SYSTEM_CONFIGURATION_REGEX_MATCHER
  | ADCP_COMPASS_CALIBRATION_REGEX_MATCHER.

Definition matcher_eqb (a b : matcher) : bool :=
  match a, b with
  | ADCP_PD0_PARSED_REGEX_MATCHER, ADCP_PD0_PARSED_REGEX_MATCHER => true
  | ADCP_SYSTEM_CONFIGURATION_REGEX_MATCHER, ADCP_SYSTEM_CONFIGURATION_REGEX_MATCHER => true
  | ADCP_COMPASS_CALIBRATION_REGEX_MATCHER, ADCP_COMPASS_CALIBRATION_REGEX_MATCHER => true
  | _, _ => false
  end.

Definition sieve_matchers : list matcher :=
  [ADCP_PD0_PARSED_REGEX_MATCHER;
   ADCP_SYSTEM_CONFIGURATION_REGEX_MATCHER;
   ADCP_COMPASS_CALIBRATION_REGEX_MATCHER].

(** [sieve_function].  The two ASCII patterns are defined in the particles
    module, which the driver imports; they are taken as arguments. *)
Definition sieve_function (sysconf_re compass_re : regex) (raw_data : buffer)
  : list chunk :=
  let pattern_of (m : matcher) : regex :=
    match m with
    | ADCP_PD0_PARSED_REGEX_MATCHER => sync_then 2
    | ADCP_SYSTEM_CONFIGURATION_REGEX_MATCHER => sysconf_re
    | ADCP_COMPASS_CALIBRATION_REGEX_MATCHER => compass_re
    end in
  fold_left
    (fun return_list m =>
       if matcher_eqb m ADCP_PD0_PARSED_REGEX_MATCHER
       then return_list ++ pd0_chunks raw_data
       else return_list ++ finditer (pattern_of m) raw_data 0)
    sieve_matchers [].

(** A response-block pattern of the shape [HEADER.*?>] under [re.DOTALL]:
    the literal header, then lazily everything up to the first ['>']. *)
Fixpoint starts_with (hdr : list byte) (raw : buffer) : bool :=
  match hdr, raw with
  | [], _ => true
  | h :: hdr', b :: raw' => Byte.eqb h b && starts_with hdr' raw'
  | _ :: _, [] => false
  end.

Fixpoint find_byte (b : byte) (raw : buffer) : option nat :=
  match raw with
  | [] => None
  | c :: raw' => if Byte.eqb b c then Some 0
                 else option_map S (find_byte b raw')
  end.

Definition block_re (hdr : list byte) : regex :=
  fun raw i =>
    if starts_with hdr (skipn i raw)
    then option_map (fun k => i + length hdr + k + 1)
                    (find_byte x3e (skipn (i + length hdr) raw))
    else None.

(** ** Specification-side notions used by the claims *)

(** Ascending order of start offsets. *)
Definition ascending_starts (l : list chunk) : Prop :=
  StronglySorted (fun a b => fst a <= fst b) l.

Definition strictly_ascending_starts (l : list chunk) : Prop :=
  StronglySorted (fun a b => fst a < fst b) l.

(** The trailing-marker check of the specification: the sync marker
    reappears at [start + length]. *)
Definition trailing_marker_ok (raw : buffer) (start : nat) : bool :=
  sync_at raw (start + unpack_H raw start).

(** A buffer holding one well-formed record in the sense of the
    specification: the sync marker at offset 0, a declared length [len],
    the marker again at offset [len], and nothing after that marker. *)
Definition one_record (raw : buffer) (len : nat) : Prop :=
  sync_at raw 0 = true /\ 4 <= len /\ unpack_H raw 0 = len /\
  sync_at raw len = true /\ length raw = len + 2.

(** A sync marker inside the payload (after the 4 header bytes, before the
    end of the record) that fails the trailing-marker check. *)
Definition spurious_marker (raw : buffer) (len q : nat) : Prop :=
  4 <= q /\ q + 2 <= len /\ sync_at raw q = true /\
  trailing_marker_ok raw q = false.

End Sieve.

(* ===================================================================== *)
(** * Part II: the protocol handlers                                      *)
(* ===================================================================== *)

Module Protocol.

Local Open Scope string_scope.

(** ** Constants and enumerations of the driver *)

(** [TIMEOUT = 10], in seconds. *)
Definition TIMEOUT : nat := 10.

Definition NEWLINE : string := String "013" (String "010" EmptyString).

Module InstrumentCmds.
Inductive t : Type :=
  | BREAK | SEND_LAST_SAMPLE | SAVE_SETUP_TO_RAM | START_DEPLOYMENT
  | OUTPUT_CALIBRATION_DATA | CLEAR_ERROR_STATUS_WORD
  | DISPLAY_ERROR_STATUS_WORD | CLEAR_FAULT_LOG | GET_FAULT_LOG
  | GET_SYSTEM_CONFIGURATION | GET_INSTRUMENT_TRANSFORM_MATRIX
  | RUN_TEST_200 | SET | GET.

(** The string sent to the instrument for each command. *)
Definition value (c : t) : string :=
  match c with
  | BREAK => "break 500"
  | SEND_LAST_SAMPLE => "CE"
  | SAVE_SETUP_TO_RAM => "CK"
  | START_DEPLOYMENT => "CS"
  | OUTPUT_CALIBRATION_DATA => "AC"
  | CLEAR_ERROR_STATUS_WORD => "CY0"
  | DISPLAY_ERROR_STATUS_WORD => "CY1"
  | CLEAR_FAULT_LOG => "FC"
  | GET_FAULT_LOG => "FD"
  | GET_SYSTEM_CONFIGURATION => "PS0"
  | GET_INSTRUMENT_TRANSFORM_MATRIX => "PS3"
  | RUN_TEST_200 => "PT200"
  | SET => " "
  | GET => "  "
  end.
End InstrumentCmds.

Module ProtocolState.
Inductive t : Type := UNKNOWN | COMMAND | AUTOSAMPLE | DIRECT_ACCESS.
End ProtocolState.

Module ResourceAgentState.
Inductive t : Type := IDLE | STREAMING | COMMAND | DIRECT_ACCESS.
End ResourceAgentState.

Module DriverAsyncEvent.
Inductive t : Type := STATE_CHANGE | CONFIG_CHANGE.
End DriverAsyncEvent.

(** The protocol events whose handlers are modelled here. *)
Module ProtocolEvent.
Inductive t : Type :=
  | ENTER | EXIT | DISCOVER
  | START_AUTOSAMPLE | STOP_AUTOSAMPLE
  | GET_CALIBRATION | GET_CONFIGURATION
  | CLOCK_SYNC | SCHEDULED_CLOCK_SYNC | SET.
End ProtocolEvent.

Module Prompt.
Definition COMMAND : string := NEWLINE ++ ">" ++ NEWLINE ++ ">".
Definition ERR : string := "ERR:".
End Prompt.

(** The device parameters, class [Parameter(DriverParameter)] of the
    driver. *)
Module Param.
Definition SERIAL_DATA_OUT := "CD".
Definition SERIAL_FLOW_CONTROL := "CF".
Definition BANNER := "CH".
Definition INSTRUMENT_ID := "CI".
Definition SLEEP_ENABLE := "CL".
Definition SAVE_NVRAM_TO_RECORDER := "CN".
Definition POLLED_MODE := "CP".
Definition XMIT_POWER := "CQ".
Definition SPEED_OF_SOUND := "EC".
Definition PITCH := "EP".
Definition ROLL := "ER".
Definition SALINITY := "ES".
Definition COORDINATE_TRANSFORMATION := "EX".
Definition SENSOR_SOURCE := "EZ".
Definition TIME_PER_ENSEMBLE := "TE".
Definition TIME_OF_FIRST_PING := "TG".
Definition TIME_PER_PING := "TP".
Definition TIME := "TT".
Definition FALSE_TARGET_THRESHOLD := "WA".
Definition BANDWIDTH_CONTROL := "WB".
Definition CORRELATION_THRESHOLD := "WC".
Definition SERIAL_OUT_FW_SWITCHES := "WD".
Definition ERROR_VELOCITY_THRESHOLD := "WE".
Definition BLANK_AFTER_TRANSMIT := "WF".
Definition CLIP_DATA_PAST_BOTTOM := "WI".
Definition RECEIVER_GAIN_SELECT := "WJ".
Definition WATER_REFERENCE_LAYER := "WL".
Definition WATER_PROFILING_MODE := "WM".
Definition NUMBER_OF_DEPTH_CELLS := "WN".
Definition PINGS_PER_ENSEMBLE := "WP".
Definition DEPTH_CELL_SIZE := "WS".
Definition TRANSMIT_LENGTH := "WT".
Definition PING_WEIGHT := "WU".
Definition AMBIGUITY_VELOCITY := "WV".

(** The class attributes, in declaration order, followed by the names the
    class inherits from [DriverParameter] and [BaseEnum] and the private
    names every class has. *)
Definition attributes : list (string * string) :=
  [("SERIAL_DATA_OUT", SERIAL_DATA_OUT);
   ("SERIAL_FLOW_CONTROL", SERIAL_FLOW_CONTROL);
   ("BANNER", BANNER);
   ("INSTRUMENT_ID", INSTRUMENT_ID);
   ("SLEEP_ENABLE", SLEEP_ENABLE);
   ("SAVE_NVRAM_TO_RECORDER", SAVE_NVRAM_TO_RECORDER);
   ("POLLED_MODE", POLLED_MODE);
   ("XMIT_POWER", XMIT_POWER);
   ("SPEED_OF_SOUND", SPEED_OF_SOUND);
   ("PITCH", PITCH);
   ("ROLL", ROLL);
   ("SALINITY", SALINITY);
   ("COORDINATE_TRANSFORMATION", COORDINATE_TRANSFORMATION);
   ("SENSOR_SOURCE", SENSOR_SOURCE);
   ("TIME_PER_ENSEMBLE", TIME_PER_ENSEMBLE);
   ("TIME_OF_FIRST_PING", TIME_OF_FIRST_PING);
   ("TIME_PER_PING", TIME_PER_PING);
   ("TIME", TIME);
   ("FALSE_TARGET_THRESHOLD", FALSE_TARGET_THRESHOLD);
   ("BANDWIDTH_CONTROL", BANDWIDTH_CONTROL);
   ("CORRELATION_THRESHOLD", CORRELATION_THRESHOLD);
   ("SERIAL_OUT_FW_SWITCHES", SERIAL_OUT_FW_SWITCHES);
   ("ERROR_VELOCITY_THRESHOLD", ERROR_VELOCITY_THRESHOLD);
   ("BLANK_AFTER_TRANSMIT", BLANK_AFTER_TRANSMIT);
   ("CLIP_DATA_PAST_BOTTOM", CLIP_DATA_PAST_BOTTOM);
   ("RECEIVER_GAIN_SELECT", RECEIVER_GAIN_SELECT);
   ("WATER_REFERENCE_LAYER", WATER_REFERENCE_LAYER);
   ("WATER_PROFILING_MODE", WATER_PROFILING_MODE);
   ("NUMBER_OF_DEPTH_CELLS", NUMBER_OF_DEPTH_CELLS);
   ("PINGS_PER_ENSEMBLE", PINGS_PER_ENSEMBLE);
   ("DEPTH_CELL_SIZE", DEPTH_CELL_SIZE);
   ("TRANSMIT_LENGTH", TRANSMIT_LENGTH);
   ("PING_WEIGHT", PING_WEIGHT);
   ("AMBIGUITY_VELOCITY", AMBIGUITY_VELOCITY);
   ("ALL", "DRIVER_PARAMETER_ALL");
   ("dict", ""); ("has", ""); ("list", "");
   ("__doc__", ""); ("__module__", "")].
(* [dict], [has] and [list] are methods and the private names hold other
   objects; the loop of [_update_params] skips all of them, and [ALL],
   before reading a value. *)

(** [dir(Parameter)]. *)
Definition dir : list string := map fst attributes.

(** [getattr(Parameter, attr)]. *)
Definition getattr (attr : string) : option string :=
  option_map snd (find (fun kv => String.eqb (fst kv) attr) attributes).
End Param.

(** [sorted(...)] on a list of names: insertion sort by byte-wise string
    comparison. *)
Fixpoint insert_sorted (s : string) (l : list string) : list string :=
  match l with
  | [] => [s]
  | x :: l' => if String.leb s x then s :: l else x :: insert_sorted s l'
  end.

Definition sorted (l : list string) : list string :=
  fold_right insert_sorted [] l.

(** [attr.startswith("_")]. *)
Definition startswith_underscore (s : string) : bool :=
  match s with
  | String c _ => Ascii.eqb c "_"
  | EmptyString => false
  end.

(** The keys the loop of [_update_params] visits, in order: the sorted
    attribute names, without [dict], [has], [list], [ALL] and the private
    names. *)
Definition update_params_keys : list string :=
  flat_map
    (fun attr =>
       if existsb (String.eqb attr) ["dict"; "has"; "list"; "ALL"] then []
       else if startswith_underscore attr then []
       else match Param.getattr attr with
            | Some key => [key]
            | None => []
            end)
    (sorted Param.dir).

(** Visibility of a parameter in the parameter dictionary. *)
Module ParameterDictVisibility.
Inductive t : Type := READ_ONLY | READ_WRITE | IMMUTABLE.
End ParameterDictVisibility.

(** The [visibility=] arguments of [_build_param_dict]; a parameter added
    without one is read-write. *)
Definition visibility (key : string) : option ParameterDictVisibility.t :=
  if existsb (String.eqb key) [Param.SERIAL_DATA_OUT; Param.TIME]
  then Some ParameterDictVisibility.READ_ONLY
  else if existsb (String.eqb key)
            [Param.SERIAL_FLOW_CONTROL; Param.SAVE_NVRAM_TO_RECORDER;
             Param.SERIAL_OUT_FW_SWITCHES; Param.WATER_PROFILING_MODE]
  then Some ParameterDictVisibility.IMMUTABLE
  else if existsb (String.eqb key) (map snd (firstn 34 Param.attributes))
  then Some ParameterDictVisibility.READ_WRITE
  else None.

(** ** Python values and exceptions *)

Inductive pyval : Type :=
  | VNone
  | VBool (b : bool)
  | VInt (n : nat)
  | VStr (s : string)
  | VAgentState (a : ResourceAgentState.t)
  | VPair (a b : pyval).

(** A positional argument: a parameter dictionary (in iteration order) or
    a plain value. *)
Inductive arg : Type :=
  | ADict (d : list (string * pyval))
  | AVal (v : pyval).

Definition agent_state_eqb (a b : ResourceAgentState.t) : bool :=
  match a, b with
  | ResourceAgentState.IDLE, ResourceAgentState.IDLE
  | ResourceAgentState.STREAMING, ResourceAgentState.STREAMING
  | ResourceAgentState.COMMAND, ResourceAgentState.COMMAND
  | ResourceAgentState.DIRECT_ACCESS, ResourceAgentState.DIRECT_ACCESS => true
  | _, _ => false
  end.

(** [a == b] on values. *)
Fixpoint pyval_eqb (a b : pyval) : bool :=
  match a, b with
  | VNone, VNone => true
  | VBool x, VBool y => Bool.eqb x y
  | VInt x, VInt y => Nat.eqb x y
  | VStr x, VStr y => String.eqb x y
  | VAgentState x, VAgentState y => agent_state_eqb x y
  | VPair x1 x2, VPair y1 y2 => pyval_eqb x1 y1 && pyval_eqb x2 y2
  | _, _ => false
  end.

(** Truth value of [if v:]. *)
Definition truthy (v : pyval) : bool :=
  match v with
  | VNone => false
  | VBool b => b
  | VInt n => negb (Nat.eqb n 0)
  | VStr s => negb (String.eqb s "")
  | VAgentState _ => true
  | VPair _ _ => true
  end.

(** Exception classes.  All derive from [Exception] but
    [KeyboardInterrupt].  [ReadOnly] is the failure of the read-only
    verification. *)
Inductive exn_class : Type :=
  | InstrumentProtocolException
  | InstrumentTimeoutException
  | InstrumentParameterException
  | InstrumentStateException
  | ReadOnly
  | socket_error
  | TypeError
  | UnboundLocalError
  | KeyboardInterrupt.

Record exn : Type := Exn { class_of : exn_class; message : string }.

Definition exn_class_eqb (a b : exn_class) : bool :=
  match a, b with
  | InstrumentProtocolException, InstrumentProtocolException
  | InstrumentTimeoutException, InstrumentTimeoutException
  | InstrumentParameterException, InstrumentParameterException
  | InstrumentStateException, InstrumentStateException
  | ReadOnly, ReadOnly
  | socket_error, socket_error
  | TypeError, TypeError
  | UnboundLocalError, UnboundLocalError
  | KeyboardInterrupt, KeyboardInterrupt => true
  | _, _ => false
  end.

(** [isinstance(e, Exception)]. *)
Definition is_Exception (e : exn) : bool :=
  negb (exn_class_eqb (class_of e) KeyboardInterrupt).

(** ** The instrument seen from the handlers

    The handlers reach the instrument through methods of the protocol base
    classes, the driver event callback and a socket.  Each such call is
    recorded; what it returns or raises is up to the instrument. *)

Record kwargs : Type :=
  Kwargs { timeout : option nat; expected_prompt : option string }.

Definition no_kwargs : kwargs := Kwargs None None.

(** [kwargs.get('timeout', default)]. *)
Definition get_timeout (kw : kwargs) (default : nat) : nat :=
  match timeout kw with
  | Some t => t
  | None => default
  end.

Inductive call : Type :=
  | _wakeup (timeout : nat) (delay_ms : nat)
  | _wakeup_until (timeout : arg) (desired_prompt : string)
  | _do_cmd_resp (cmd : InstrumentCmds.t) (args : list arg) (kw : kwargs)
  | _do_cmd_no_resp (cmd : InstrumentCmds.t) (args : list arg) (kw : kwargs)
  | _sync_clock (a b : string) (timeout : nat) (time_format : string)
  | _driver_event (ev : DriverAsyncEvent.t)
  | socket_socket
  | socket_connect (host : string) (port : nat)
  | socket_send (data : string)
  | socket_close.

Inductive outcome : Type :=
  | Returns (v : pyval)
  | Raises (e : exn).

Inductive event : Type :=
  | Call (c : call)
  | Sleep (ms : nat)
  | GetTimestamp (fmt : string).

(** An instrument with internal state [W]: its answer to each call, the
    passing of time, the clock ([get_timestamp_delayed]) and the text of
    [repr(self._param_dict.get_config())]. *)
Record instrument (W : Type) : Type :=
  Instrument {
    respond : call -> W -> outcome * W;
    elapse : nat -> W -> W;
    timestamp : string -> W -> string * W;
    config_repr : W -> string
  }.

(** The protocol object: the instrument, the calls made so far (oldest
    first) and the current state of the protocol state machine. *)
Record state (W : Type) : Type :=
  State { world : W; trace : list event; current_state : ProtocolState.t }.

Inductive result (A : Type) : Type :=
  | Ok (a : A)
  | Raise (e : exn).

Arguments Ok {A} a.
Arguments Raise {A} e.

(** ** A state-and-exception monad

    A raised exception keeps the effects made before it. *)
Definition M (W A : Type) : Type := state W -> result A * state W.

Definition ret {W A} (a : A) : M W A := fun st => (Ok a, st).

Definition raise {W A} (e : exn) : M W A := fun st => (Raise e, st).

Definition bind {W A B} (m : M W A) (k : A -> M W B) : M W B :=
  fun st =>
    match m st with
    | (Ok a, st') => k a st'
    | (Raise e, st') => (Raise e, st')
    end.

Declare Scope py_scope.
Delimit Scope py_scope with py.
Notation "x <- m ;; k" := (bind m (fun x => k))
  (at level 61, m at next level, right associativity) : py_scope.
Notation "m ;; k" := (bind m (fun _ => k))
  (at level 61, right associativity) : py_scope.
Local Open Scope py_scope.

(** [try: body  except Exception as e: handler e]. *)
Definition try_except {W A} (body : M W A) (handler : exn -> M W A) : M W A :=
  fun st =>
    match body st with
    | (Ok a, st') => (Ok a, st')
    | (Raise e, st') => if is_Exception e then handler e st' else (Raise e, st')
    end.

(** [try: body  except cls, msg: handler]. *)
Definition try_except_class {W A} (cls : exn_class) (body : M W A)
    (handler : M W A) : M W A :=
  fun st =>
    match body st with
    | (Ok a, st') => (Ok a, st')
    | (Raise e, st') =>
        if exn_class_eqb (class_of e) cls then handler st' else (Raise e, st')
    end.

(** [try: body  finally: cleanup].  The cleanup always runs; an exception
    it raises replaces the outcome of the body. *)
Definition try_finally {W A B} (body : M W A) (cleanup : M W B) : M W A :=
  fun st =>
    match body st with
    | (r, st') =>
        match cleanup st' with
        | (Ok _, st'') => (r, st'')
        | (Raise e', st'') => (Raise e', st'')
        end
    end.

Definition get_current_state {W} : M W ProtocolState.t :=
  fun st => (Ok (current_state st), st).

Definition set_current_state {W} (s : ProtocolState.t) : M W unit :=
  fun st => (Ok tt, State (world st) (trace st) s).

(** ** The handlers *)

Section Handlers.

Variable W : Type.
Variable dev : instrument W.

(** A call into the base classes, the event callback or the socket. *)
Definition perform (c : call) : M W pyval :=
  fun st =>
    match respond dev c (world st) with
    | (Returns v, w') =>
        (Ok v, State w' (trace st ++ [Call c]) (current_state st))
    | (Raises e, w') =>
        (Raise e, State w' (trace st ++ [Call c]) (current_state st))
    end.

(** [time.sleep(ms / 1000.0)]. *)
Definition sleep (ms : nat) : M W unit :=
  fun st =>
    (Ok tt, State (elapse dev ms (world st)) (trace st ++ [Sleep ms])
                  (current_state st)).

(** [get_timestamp_delayed(fmt)]. *)
Definition get_timestamp_delayed (fmt : string) : M W string :=
  fun st =>
    match timestamp dev fmt (world st) with
    | (s, w') => (Ok s, State w' (trace st ++ [GetTimestamp fmt]) (current_state st))
    end.

(** [repr(self._param_dict.get_config())]. *)
Definition get_config : M W string :=
  fun st => (Ok (config_repr dev (world st)), st).

(** [_send_break]. *)
Definition _send_break : M W unit :=
  sock <- try_except_class socket_error
            (perform socket_socket ;; ret true)
            (ret false) ;;
  if sock : bool then
    try_except_class socket_error
      (perform (socket_connect "10.180.80.178" 2102) ;; ret tt)
      (ret tt) ;;
    perform (socket_send ("break 300" ++ NEWLINE)) ;;
    perform socket_close ;;
    ret tt
  else
    raise (Exn UnboundLocalError
               "local variable 'sock' referenced before assignment").

(** [_is_logging]: the [timeout] argument is not used, the wake-up runs
    with [TIMEOUT] and a delay of 0.3 s.  Where the source leaves the
    argument out, its default [TIMEOUT] is written out. *)
Definition _is_logging (timeout : arg) : M W pyval :=
  prompt <- perform (_wakeup TIMEOUT 300) ;;
  if pyval_eqb (VStr Prompt.COMMAND) prompt
  then ret (VBool false)
  else ret (VBool true).

(** [_start_logging]. *)
Definition _start_logging (timeout : nat) : M W pyval :=
  logging <- _is_logging (AVal (VInt TIMEOUT)) ;;
  if truthy logging then ret (VBool true)
  else
    perform (_do_cmd_no_resp InstrumentCmds.START_DEPLOYMENT []
                            (Kwargs (Some timeout) None)) ;;
    sleep 1000 ;;
    ret (VBool true).

(** [_stop_logging]: [timeout] is whatever object the caller passes; it
    is handed on to [_wakeup_until] and to the probe. *)
Definition _stop_logging (timeout : arg) : M W pyval :=
  sleep 2000 ;;
  _send_break ;;
  sleep 1000 ;;
  perform (_wakeup_until timeout Prompt.COMMAND) ;;
  logging <- _is_logging timeout ;;
  if truthy logging
  then raise (Exn InstrumentProtocolException "failed to stop logging")
  else ret (VBool true).

(** The call [self._stop_logging( *args, **kwargs)] of the autosample
    handlers.  [_stop_logging] has one parameter, [timeout]: a single
    positional argument, whatever object it is, becomes the timeout; a
    second positional argument, a keyword other than [timeout], or
    [timeout] given both ways is a [TypeError] of the call (the texts of
    these messages are shortened). *)
Definition _stop_logging_with (args : list arg) (kw : kwargs) : M W pyval :=
  match args, expected_prompt kw with
  | [], None => _stop_logging (AVal (VInt (get_timeout kw TIMEOUT)))
  | [t], None =>
      match timeout kw with
      | None => _stop_logging t
      | Some _ =>
          raise (Exn TypeError
                 "_stop_logging() got multiple values for keyword argument 'timeout'")
      end
  | _ :: _ :: _, _ =>
      raise (Exn TypeError "_stop_logging() takes at most 2 arguments")
  | _, Some _ =>
      raise (Exn TypeError
             "_stop_logging() got an unexpected keyword argument 'expected_prompt'")
  end.

(** The loop of [_update_params]: one GET per key; [results] accumulates
    the responses and [key] keeps the last key visited. *)
Fixpoint update_params_loop (keys : list string) (kw : kwargs)
    (results : string) (key : option string) : M W (string * option string) :=
  match keys with
  | [] => ret (results, key)
  | k :: keys' =>
      result <- perform (_do_cmd_resp InstrumentCmds.GET [AVal (VStr k)] kw) ;;
      match result with
      | VStr r =>
          update_params_loop keys' kw (results ++ r ++ NEWLINE) (Some k)
      | _ => raise (Exn TypeError "unsupported operand type(s) for +")
      end
  end.

(** [_update_params]. *)
Definition _update_params (kw : kwargs) : M W string :=
  perform (_wakeup TIMEOUT 300) ;;
  old_config <- get_config ;;
  let kw := Kwargs (timeout kw) (Some Prompt.COMMAND) in
  r <- update_params_loop update_params_keys kw "" None ;;
  match snd r with
  | None => raise (Exn UnboundLocalError
                       "local variable 'key' referenced before assignment")
  | Some key =>
      perform (_do_cmd_resp InstrumentCmds.GET [AVal (VStr key)] kw) ;;
      new_config <- get_config ;;
      (if String.eqb new_config old_config then ret VNone
       else perform (_driver_event DriverAsyncEvent.CONFIG_CHANGE)) ;;
      ret (fst r)
  end.

(** Modelled from the spec: [_verify_not_readonly] is a method of the
    protocol base class, which is not among the sources.  A set "fails
    with ReadOnly if the parameter's mutability forbids it or its
    visibility marks it immutable at runtime". *)
Definition not_settable (key : string) : bool :=
  match visibility key with
  | Some ParameterDictVisibility.READ_ONLY => true
  | Some ParameterDictVisibility.IMMUTABLE => true
  | _ => false
  end.

Definition _verify_not_readonly (args : list arg) (kw : kwargs) : M W unit :=
  match args with
  | ADict params :: _ =>
      if existsb (fun kv => not_settable (fst kv)) params
      then raise (Exn ReadOnly "Attempt to set read only parameter(s)")
      else ret tt
  | _ => raise (Exn InstrumentParameterException "parameters not a dict")
  end.

(** The loop of [_set_params]: one SET per entry; [result] keeps the last
    response. *)
Fixpoint set_params_loop (params : list (string * pyval)) (kw : kwargs)
    (result : option pyval) : M W (option pyval) :=
  match params with
  | [] => ret result
  | (key, val) :: params' =>
      r <- perform (_do_cmd_resp InstrumentCmds.SET
                                [AVal (VStr key); AVal val] kw) ;;
      set_params_loop params' kw (Some r)
  end.

(** [_set_params]. *)
Definition _set_params (args : list arg) (kw : kwargs) : M W pyval :=
  match args with
  | [] => raise (Exn InstrumentParameterException
                     "Set command requires a parameter dict.")
  | params :: _ =>
      _verify_not_readonly args kw ;;
      match params with
      | ADict d =>
          result <- set_params_loop d kw None ;;
          _update_params no_kwargs ;;
          match result with
          | Some r => ret r
          | None => raise (Exn UnboundLocalError
                           "local variable 'result' referenced before assignment")
          end
      | AVal _ => raise (Exn TypeError "object has no attribute 'iteritems'")
      end
  end.

(** What a handler returns: [(next_state, result)]. *)
Definition handler_result : Type := (option ProtocolState.t * pyval)%type.

(** [_handler_unknown_discover]. *)
Definition _handler_unknown_discover (args : list arg) (kw : kwargs)
  : M W handler_result :=
  logging <- _is_logging (AVal (VInt TIMEOUT)) ;;
  if pyval_eqb logging VNone then
    raise (Exn InstrumentProtocolException
               "_handler_unknown_discover - unable to to determine state")
  else if truthy logging then
    ret (Some ProtocolState.AUTOSAMPLE, VAgentState ResourceAgentState.STREAMING)
  else
    ret (Some ProtocolState.COMMAND, VAgentState ResourceAgentState.IDLE).

(** [_handler_command_enter]. *)
Definition _handler_command_enter : M W unit :=
  _update_params no_kwargs ;;
  perform (_driver_event DriverAsyncEvent.STATE_CHANGE) ;;
  ret tt.

(** [_handler_autosample_enter]. *)
Definition _handler_autosample_enter : M W unit :=
  perform (_driver_event DriverAsyncEvent.STATE_CHANGE) ;;
  ret tt.

(** [_handler_direct_access_enter]; the list of sent commands it clears is
    not part of the model. *)
Definition _handler_direct_access_enter : M W unit :=
  perform (_driver_event DriverAsyncEvent.STATE_CHANGE) ;;
  ret tt.

(** [_handler_command_start_autosample]. *)
Definition _handler_command_start_autosample (args : list arg) (kw : kwargs)
  : M W handler_result :=
  let kw := Kwargs (Some 30) (Some Prompt.COMMAND) in
  now <- get_timestamp_delayed "%Y/%m/%d, %H:%M:%S" ;;
  perform (_do_cmd_resp InstrumentCmds.SET
                       [AVal (VStr Param.TIME); AVal (VStr now)] kw) ;;
  perform (_do_cmd_resp InstrumentCmds.SAVE_SETUP_TO_RAM args kw) ;;
  perform (_do_cmd_no_resp InstrumentCmds.START_DEPLOYMENT args kw) ;;
  ret (Some ProtocolState.AUTOSAMPLE,
       VPair (VAgentState ResourceAgentState.STREAMING) VNone).

(** [_handler_autosample_stop_autosample]. *)
Definition _handler_autosample_stop_autosample (args : list arg) (kw : kwargs)
  : M W handler_result :=
  let timeout := get_timeout kw TIMEOUT in
  _stop_logging (AVal (VInt timeout)) ;;
  ret (Some ProtocolState.COMMAND,
       VPair (VAgentState ResourceAgentState.COMMAND) VNone).

(** The [try] blocks of the three autosample handlers that interrupt
    logging; each yields the value left in [result]. *)
Definition autosample_get_calibration_try (args : list arg) (kw : kwargs)
  : M W pyval :=
  _stop_logging_with args kw ;;
  let kw := Kwargs (Some 120) (expected_prompt kw) in
  result <- perform (_do_cmd_resp InstrumentCmds.OUTPUT_CALIBRATION_DATA args kw) ;;
  sleep 5000 ;;
  ret result.

Definition autosample_get_configuration_try (args : list arg) (kw : kwargs)
  : M W pyval :=
  _stop_logging_with args kw ;;
  result <- perform (_do_cmd_resp InstrumentCmds.GET_SYSTEM_CONFIGURATION args kw) ;;
  ret result.

Definition autosample_clock_sync_try (args : list arg) (kw : kwargs)
  : M W pyval :=
  _stop_logging_with args kw ;;
  let timeout := get_timeout kw TIMEOUT in
  perform (_sync_clock (InstrumentCmds.value InstrumentCmds.SET) Param.TIME
                      timeout "%Y/%m/%dT, %H:%M:%S") ;;
  ret VNone.

(** The shape the three handlers share:
    [error = None
     try: ...
     except Exception as e: error = e
     finally: self._start_logging()
     if(error): raise error
     return (next_state, (next_agent_state, result))]. *)
Definition _handler_autosample_get_calibration (args : list arg) (kw : kwargs)
  : M W handler_result :=
  r <- try_finally
         (try_except
            (result <- autosample_get_calibration_try args kw ;;
             ret (result, None))
            (fun e => ret (VNone, Some e)))
         (_start_logging TIMEOUT) ;;
  match snd r with
  | Some error => raise error
  | None => ret (None, VPair VNone (fst r))
  end.

Definition _handler_autosample_get_configuration (args : list arg) (kw : kwargs)
  : M W handler_result :=
  r <- try_finally
         (try_except
            (result <- autosample_get_configuration_try args kw ;;
             ret (result, None))
            (fun e => ret (VNone, Some e)))
         (_start_logging TIMEOUT) ;;
  match snd r with
  | Some error => raise error
  | None => ret (None, VPair VNone (fst r))
  end.

Definition _handler_autosample_clock_sync (args : list arg) (kw : kwargs)
  : M W handler_result :=
  r <- try_finally
         (try_except
            (result <- autosample_clock_sync_try args kw ;;
             ret (result, None))
            (fun e => ret (VNone, Some e)))
         (_start_logging TIMEOUT) ;;
  match snd r with
  | Some error => raise error
  | None => ret (None, VPair VNone (fst r))
  end.

(** [_handler_command_set]. *)
Definition _handler_command_set (args : list arg) (kw : kwargs)
  : M W handler_result :=
  match args with
  | [] => raise (Exn InstrumentParameterException
                 "_handler_command_set Set command requires a parameter dict.")
  | params :: rest =>
      let startup := match rest with
                     | s :: _ => s
                     | [] => AVal (VBool false)
                     end in
      match params with
      | ADict _ =>
          result <- _set_params [params; startup] no_kwargs ;;
          ret (None, result)
      | AVal _ => raise (Exn InstrumentParameterException
                             "Set parameters not a dict.")
      end
  end.

(** [_handler_command_get_calibration]. *)
Definition _handler_command_get_calibration (args : list arg) (kw : kwargs)
  : M W handler_result :=
  let kw := Kwargs (Some 120) (expected_prompt kw) in
  result <- perform (_do_cmd_resp InstrumentCmds.OUTPUT_CALIBRATION_DATA args kw) ;;
  ret (None, VPair VNone result).

(** [_handler_command_get_configuration]. *)
Definition _handler_command_get_configuration (args : list arg) (kw : kwargs)
  : M W handler_result :=
  let kw := Kwargs (Some 120) (expected_prompt kw) in
  result <- perform (_do_cmd_resp InstrumentCmds.GET_SYSTEM_CONFIGURATION args kw) ;;
  ret (None, VPair VNone result).

(** [_handler_command_clock_sync]. *)
Definition _handler_command_clock_sync (args : list arg) (kw : kwargs)
  : M W handler_result :=
  let timeout := get_timeout kw TIMEOUT in
  perform (_wakeup TIMEOUT 1000) ;;
  perform (_sync_clock Param.TIME Prompt.COMMAND timeout "%Y/%m/%d, %H:%M:%S") ;;
  ret (None, VPair VNone VNone).

(** ** The protocol state machine *)

(** The handlers registered with [add_handler] in [__init__] for the
    events of the model. *)
Definition state_handlers (s : ProtocolState.t) (ev : ProtocolEvent.t)
  : option (list arg -> kwargs -> M W handler_result) :=
  match s, ev with
  | ProtocolState.UNKNOWN, ProtocolEvent.DISCOVER => Some _handler_unknown_discover
  | ProtocolState.COMMAND, ProtocolEvent.DISCOVER => Some _handler_unknown_discover
  | ProtocolState.COMMAND, ProtocolEvent.START_AUTOSAMPLE =>
      Some _handler_command_start_autosample
  | ProtocolState.COMMAND, ProtocolEvent.SET => Some _handler_command_set
  | ProtocolState.COMMAND, ProtocolEvent.CLOCK_SYNC => Some _handler_command_clock_sync
  | ProtocolState.COMMAND, ProtocolEvent.SCHEDULED_CLOCK_SYNC =>
      Some _handler_command_clock_sync
  | ProtocolState.COMMAND, ProtocolEvent.GET_CALIBRATION =>
      Some _handler_command_get_calibration
  | ProtocolState.COMMAND, ProtocolEvent.GET_CONFIGURATION =>
      Some _handler_command_get_configuration
  | ProtocolState.AUTOSAMPLE, ProtocolEvent.STOP_AUTOSAMPLE =>
      Some _handler_autosample_stop_autosample
  | ProtocolState.AUTOSAMPLE, ProtocolEvent.SCHEDULED_CLOCK_SYNC =>
      Some _handler_autosample_clock_sync
  | ProtocolState.AUTOSAMPLE, ProtocolEvent.GET_CALIBRATION =>
      Some _handler_autosample_get_calibration
  | ProtocolState.AUTOSAMPLE, ProtocolEvent.GET_CONFIGURATION =>
      Some _handler_autosample_get_configuration
  | _, _ => None
  end.

(** The ENTER and EXIT handlers of each state; the exit handlers and the
    enter handler of UNKNOWN do nothing. *)
Definition enter_handler (s : ProtocolState.t) : M W unit :=
  match s with
  | ProtocolState.UNKNOWN => ret tt
  | ProtocolState.COMMAND => _handler_command_enter
  | ProtocolState.AUTOSAMPLE => _handler_autosample_enter
  | ProtocolState.DIRECT_ACCESS => _handler_direct_access_enter
  end.

Definition exit_handler (s : ProtocolState.t) : M W unit := ret tt.

(** Modelled from the spec: [InstrumentFSM.on_event] belongs to the
    instrument core, which is not among the sources.  An event runs the
    handler registered for the current state; when the handler returns a
    next state, the exit action of the current state runs, the state
    changes, and the entry action of the new state runs.  A handler that
    raises yields no next state, so the state is left as it is. *)
Definition on_event (ev : ProtocolEvent.t) (args : list arg) (kw : kwargs)
  : M W pyval :=
  s <- get_current_state ;;
  match state_handlers s ev with
  | None => raise (Exn InstrumentStateException "no handler for event")
  | Some handler =>
      r <- handler args kw ;;
      match fst r with
      | Some next_state =>
          exit_handler s ;;
          set_current_state next_state ;;
          enter_handler next_state ;;
          ret (snd r)
      | None => ret (snd r)
      end
  end.

(** The [try] block of the autosample handler of an event, for the three
    handlers that interrupt logging. *)
Definition autosample_try (ev : ProtocolEvent.t)
  : option (list arg -> kwargs -> M W pyval) :=
  match ev with
  | ProtocolEvent.GET_CALIBRATION => Some autosample_get_calibration_try
  | ProtocolEvent.GET_CONFIGURATION => Some autosample_get_configuration_try
  | ProtocolEvent.SCHEDULED_CLOCK_SYNC => Some autosample_clock_sync_try
  | _ => None
  end.

(** A computation that leaves the state of the state machine as it is. *)
Definition keeps_state {A} (m : M W A) : Prop :=
  forall st r st', m st = (r, st') -> current_state st' = current_state st.

(** The GET call [_update_params] makes for a key. *)
Definition get_call (kw : kwargs) (key : string) : event :=
  Call (_do_cmd_resp InstrumentCmds.GET [AVal (VStr key)]
                    (Kwargs (timeout kw) (Some Prompt.COMMAND))).

End Handlers.

End Protocol.

(* ===================================================================== *)
(** * Example buffers and instruments                                     *)
(* ===================================================================== *)

Module Examples.

Import Sieve Protocol.
Local Open Scope string_scope.

(** Two response-block patterns standing for the ASCII matchers. *)
Definition sysconf_re : regex :=
  block_re (list_byte_of_string "Instrument S/N").

Definition compass_re : regex :=
  block_re (list_byte_of_string "ACTIVE FLUXGATE CALIBRATION MATRICES in NVRAM").

(** One record of declared length 8 followed by the next sync marker; the
    payload holds a sync marker at offset 4 whose length bytes declare 1. *)
Definition record_with_marker_in_payload : buffer :=
  [x7f; x7f; x08; x00; x7f; x7f; x01; x00; x7f; x7f].

(** A system configuration block followed by a PD0 record. *)
Definition block_then_record : buffer :=
  (list_byte_of_string "Instrument S/N: 1>" ++ [x7f; x7f; x02; x00])%list.

(** One record of declared length 10, closed by the next sync marker; the
    sync marker in its payload declares 9 bytes, more than the buffer
    holds after it. *)
Definition record_closed_by_marker : buffer :=
  [x7f; x7f; x0a; x00; x7f; x7f; x09; x00; x01; x02; x7f; x7f].

(** An instrument without internal state, given by its answers. *)
Definition canned (answer : call -> outcome) : instrument unit :=
  Instrument (fun c w => (answer c, w))
             (fun _ w => w)
             (fun _ w => ("2013/02/26, 05:28:23", w))
             (fun _ => "{}").

Definition initial (s : ProtocolState.t) : state unit := State tt [] s.

Definition timed_out : exn := Exn InstrumentTimeoutException "in _get_response()".

Definition start_failed : exn :=
  Exn InstrumentProtocolException "start deployment failed".

(** An instrument at the command prompt that answers every command. *)
Definition at_command_prompt : instrument unit :=
  canned (fun c =>
    match c with
    | _wakeup _ _ | _wakeup_until _ _ => Returns (VStr Prompt.COMMAND)
    | _do_cmd_resp _ _ _ => Returns (VStr "ok")
    | _ => Returns VNone
    end).

(** An instrument that answers the wake-up with the error prompt. *)
Definition at_error_prompt : instrument unit :=
  canned (fun c =>
    match c with
    | _wakeup _ _ => Returns (VStr Prompt.ERR)
    | _wakeup_until _ _ => Returns (VStr Prompt.COMMAND)
    | _do_cmd_resp _ _ _ => Returns (VStr "ok")
    | _ => Returns VNone
    end).

(** The calibration command times out. *)
Definition calibration_fails : instrument unit :=
  canned (fun c =>
    match c with
    | _wakeup _ _ | _wakeup_until _ _ => Returns (VStr Prompt.COMMAND)
    | _do_cmd_resp InstrumentCmds.OUTPUT_CALIBRATION_DATA _ _ => Raises timed_out
    | _do_cmd_resp _ _ _ => Returns (VStr "ok")
    | _ => Returns VNone
    end).

(** The calibration command times out and the deployment cannot be
    started again. *)
Definition calibration_and_restart_fail : instrument unit :=
  canned (fun c =>
    match c with
    | _wakeup _ _ | _wakeup_until _ _ => Returns (VStr Prompt.COMMAND)
    | _do_cmd_resp InstrumentCmds.OUTPUT_CALIBRATION_DATA _ _ => Raises timed_out
    | _do_cmd_resp _ _ _ => Returns (VStr "ok")
    | _do_cmd_no_resp InstrumentCmds.START_DEPLOYMENT _ _ => Raises start_failed
    | _ => Returns VNone
    end).

(** The GET of one parameter times out. *)
Definition get_fails (key : string) : instrument unit :=
  canned (fun c =>
    match c with
    | _wakeup _ _ | _wakeup_until _ _ => Returns (VStr Prompt.COMMAND)
    | _do_cmd_resp InstrumentCmds.GET [AVal (VStr k)] _ =>
        if String.eqb k key then Raises timed_out else Returns (VStr (k ++ " = 0"))
    | _do_cmd_resp _ _ _ => Returns (VStr "ok")
    | _ => Returns VNone
    end).

(** An instrument that counts the GETs it has answered and lets the GET
    after [n] answered ones time out. *)
Definition get_number_fails (n : nat) : instrument nat :=
  Instrument (fun c (w : nat) =>
                match c with
                | _wakeup _ _ | _wakeup_until _ _ =>
                    (Returns (VStr Prompt.COMMAND), w)
                | _do_cmd_resp InstrumentCmds.GET _ _ =>
                    (if Nat.eqb w n then Raises timed_out
                     else Returns (VStr "0"),
                     S w)
                | _do_cmd_resp _ _ _ => (Returns (VStr "ok"), w)
                | _ => (Returns VNone, w)
                end)
             (fun _ w => w)
             (fun _ w => ("2013/02/26, 05:28:23", w))
             (fun _ => "{}").


(** Saving the setup times out. *)
Definition save_setup_fails : instrument unit :=
  canned (fun c =>
    match c with
    | _wakeup _ _ | _wakeup_until _ _ => Returns (VStr Prompt.COMMAND)
    | _do_cmd_resp InstrumentCmds.SAVE_SETUP_TO_RAM _ _ => Raises timed_out
    | _do_cmd_resp _ _ _ => Returns (VStr "ok")
    | _ => Returns VNone
    end).

End Examples.

(* ===================================================================== *)
(** * Streams of PD0 records                                              *)
(* ===================================================================== *)

Module Framing.

Import Sieve.

(** A record as the instrument sends it, without a sync byte in its
    payload: the two sync bytes, the length read by [unpack_H] (it counts
    the two length bytes and the payload), then the payload. *)
Definition clean_record (r : buffer) : bool :=
  match r with
  | a :: b :: lo :: hi :: payload =>
      Byte.eqb a x7f && Byte.eqb b x7f
      && (Byte.to_nat lo + 256 * Byte.to_nat hi =? 2 + length payload)
      && forallb (fun c => negb (Byte.eqb c x7f)) payload
  | _ => false
  end.

(** The bounds of the records of a stream that starts at offset [off]. *)
Fixpoint record_bounds (off : nat) (recs : list buffer) : list chunk :=
  match recs with
  | [] => []
  | r :: recs' => (off, off + length r) :: record_bounds (off + length r) recs'
  end.

(** The matches of [r'\x7f\x7f(..)'] at the heads of those records. *)
Fixpoint record_heads (off : nat) (recs : list buffer) : list chunk :=
  match recs with
  | [] => []
  | r :: recs' => (off, off + 4) :: record_heads (off + length r) recs'
  end.

End Framing.

(* ===================================================================== *)
(** * Command builders and response handlers                              *)
(* ===================================================================== *)

Module Responses.

Import Protocol.
Local Open Scope string_scope.

(** [s.startswith(pat)]. *)
Fixpoint startswith (pat s : string) : bool :=
  match pat, s with
  | EmptyString, _ => true
  | String p pat', String c s' => Ascii.eqb p c && startswith pat' s'
  | String _ _, EmptyString => false
  end.

(** [re.sub(pat, "", s)] for a pattern that is a plain text: the
    occurrences of [pat] are found from left to right, without overlap,
    and deleted.  [skip] counts the characters of the current occurrence
    that are still to be deleted. *)
Fixpoint re_sub_loop (pat : string) (skip : nat) (s : string) : string :=
  match s with
  | EmptyString => EmptyString
  | String c s' =>
      match skip with
      | S k => re_sub_loop pat k s'
      | 0 => if startswith pat s
             then re_sub_loop pat (String.length pat - 1) s'
             else String c (re_sub_loop pat 0 s')
      end
  end.

Definition re_sub (pat s : string) : string :=
  match pat with
  | EmptyString => s
  | String _ _ => re_sub_loop pat 0 s
  end.

(** [_build_simple_command]. *)
Definition _build_simple_command (cmd : InstrumentCmds.t) : string :=
  InstrumentCmds.value cmd ++ NEWLINE.

(** The response handlers that rewrite the response.  [prompt] is not
    used by them. *)
Definition _parse_send_last_sample_response (response prompt : string) : pyval :=
  let response := re_sub ("CE" ++ NEWLINE) response in
  VPair (VBool true) (VStr response).

Definition _parse_save_setup_to_ram_response (response prompt : string)
  : pyval :=
  let response := re_sub ("CK" ++ NEWLINE) response in
  let response := re_sub "[" response in
  let response := re_sub "]" response in
  let response := re_sub (NEWLINE ++ ">") response in
  VPair (VBool true) (VStr response).

Definition _parse_clear_error_status_response (response prompt : string)
  : pyval :=
  let response := re_sub ("CY0" ++ NEWLINE) response in
  let response := re_sub (NEWLINE ++ ">") response in
  VPair (VBool true) (VStr response).

Definition _parse_error_status_response (response prompt : string) : pyval :=
  let response := re_sub ("CY1" ++ NEWLINE) response in
  let response := re_sub (NEWLINE ++ ">") response in
  VPair (VBool true) (VStr response).

Definition _parse_clear_fault_log_response (response prompt : string) : pyval :=
  let response := re_sub ("FC" ++ NEWLINE) response in
  let response := re_sub (NEWLINE ++ ">") response in
  VPair (VBool true) (VStr response).

Definition _parse_fault_log_response (response prompt : string) : pyval :=
  let response := re_sub ("FD" ++ NEWLINE) response in
  let response := re_sub (NEWLINE ++ ">") response in
  VPair (VBool true) (VStr response).

Definition _parse_instrument_transform_matrix_response
    (response prompt : string) : pyval :=
  let response := re_sub ("PS3" ++ NEWLINE) response in
  let response := re_sub (NEWLINE ++ ">") response in
  VPair (VBool true) (VStr response).

Definition _parse_test_response (response prompt : string) : pyval :=
  let response := re_sub ("PT200" ++ NEWLINE ++ NEWLINE) response in
  let response := re_sub (NEWLINE ++ ">") response in
  VPair (VBool true) (VStr response).

(** The handlers registered with [_add_response_handler] that rewrite the
    response.  (SET and GET have handlers of their own, the calibration and
    configuration handlers return the response as it is.) *)
Definition stripping_handler (cmd : InstrumentCmds.t)
  : option (string -> string -> pyval) :=
  match cmd with
  | InstrumentCmds.SEND_LAST_SAMPLE => Some _parse_send_last_sample_response
  | InstrumentCmds.SAVE_SETUP_TO_RAM => Some _parse_save_setup_to_ram_response
  | InstrumentCmds.CLEAR_ERROR_STATUS_WORD =>
      Some _parse_clear_error_status_response
  | InstrumentCmds.DISPLAY_ERROR_STATUS_WORD => Some _parse_error_status_response
  | InstrumentCmds.CLEAR_FAULT_LOG => Some _parse_clear_fault_log_response
  | InstrumentCmds.GET_FAULT_LOG => Some _parse_fault_log_response
  | InstrumentCmds.GET_INSTRUMENT_TRANSFORM_MATRIX =>
      Some _parse_instrument_transform_matrix_response
  | InstrumentCmds.RUN_TEST_200 => Some _parse_test_response
  | _ => None
  end.

(** ** Notions used to state the properties *)

(** [a] is [b] with some characters deleted. *)
Inductive subseq : string -> string -> Prop :=
  | subseq_nil : subseq "" ""
  | subseq_keep (c : ascii) (a b : string) :
      subseq a b -> subseq (String c a) (String c b)
  | subseq_drop (c : ascii) (a b : string) :
      subseq a b -> subseq a (String c b).

(** [c in s] for a character. *)
Fixpoint has_char (c : ascii) (s : string) : bool :=
  match s with
  | EmptyString => false
  | String d s' => Ascii.eqb c d || has_char c s'
  end.

(** [pat in s] for a text. *)
Fixpoint occursb (pat s : string) : bool :=
  startswith pat s ||
  match s with
  | EmptyString => false
  | String _ s' => occursb pat s'
  end.

(** The commands whose handler deletes the echo of the command line and
    the prompt line. *)
Definition echo_and_prompt_stripped (cmd : InstrumentCmds.t) : bool :=
  match cmd with
  | InstrumentCmds.CLEAR_ERROR_STATUS_WORD
  | InstrumentCmds.DISPLAY_ERROR_STATUS_WORD
  | InstrumentCmds.CLEAR_FAULT_LOG
  | InstrumentCmds.GET_FAULT_LOG
  | InstrumentCmds.GET_INSTRUMENT_TRANSFORM_MATRIX => true
  | _ => false
  end.

End Responses.

(* ===================================================================== *)
(** * Startup parameters                                                  *)
(* ===================================================================== *)

Module Startup.

Import Protocol.
Local Open Scope string_scope.
Local Open Scope py_scope.

Definition state_eqb (a b : ProtocolState.t) : bool :=
  match a, b with
  | ProtocolState.UNKNOWN, ProtocolState.UNKNOWN
  | ProtocolState.COMMAND, ProtocolState.COMMAND
  | ProtocolState.AUTOSAMPLE, ProtocolState.AUTOSAMPLE
  | ProtocolState.DIRECT_ACCESS, ProtocolState.DIRECT_ACCESS => true
  | _, _ => false
  end.

Section Handlers.

Variable W : Type.
Variable dev : instrument W.

(** [_apply_params] is a method of the protocol base classes; what it does
    is left open. *)
Variable _apply_params : M W pyval.

(** [apply_startup_params]. *)
Definition apply_startup_params : M W unit :=
  s <- get_current_state ;;
  if negb (state_eqb s ProtocolState.COMMAND)
     && negb (state_eqb s ProtocolState.AUTOSAMPLE)
  then raise (Exn InstrumentProtocolException
                  "Not in command or autosample state. Unable to apply startup params")
  else
    logging <- _is_logging dev (AVal (VInt TIMEOUT)) ;;
    error <- try_finally
               (try_except
                  ((if truthy logging
                    then _stop_logging dev (AVal (VInt TIMEOUT)) ;; ret tt
                    else ret tt) ;;
                   _apply_params ;;
                   ret None)
                  (fun e => ret (Some e)))
               (if truthy logging
                then _start_logging dev TIMEOUT ;; ret tt
                else ret tt) ;;
    match error with
    | Some e => raise e
    | None => ret tt
    end.

(** The SET call [_set_params] makes for an entry of the parameter map. *)
Definition set_call (kw : kwargs) (kv : string * pyval) : event :=
  Call (_do_cmd_resp InstrumentCmds.SET [AVal (VStr (fst kv)); AVal (snd kv)] kw).

(** The call that starts the deployment in [_start_logging]. *)
Definition start_deployment_call (timeout : nat) : event :=
  Call (_do_cmd_no_resp InstrumentCmds.START_DEPLOYMENT []
                        (Kwargs (Some timeout) None)).



End Handlers.

(** An instrument that refuses to open a socket. *)
Definition no_socket : instrument unit :=
  Examples.canned (fun c =>
    match c with
    | socket_socket => Raises (Exn socket_error "Too many open files")
    | _ => Returns VNone
    end).

(** An instrument that cannot be reached for the break, but answers. *)
Definition unreachable_for_break : instrument unit :=
  Examples.canned (fun c =>
    match c with
    | socket_connect _ _ => Raises (Exn socket_error "Connection refused")
    | _wakeup _ _ | _wakeup_until _ _ => Returns (VStr Prompt.COMMAND)
    | _ => Returns VNone
    end).

(** The SET of one parameter is rejected. *)
Definition set_fails (key : string) : instrument unit :=
  Examples.canned (fun c =>
    match c with
    | _wakeup _ _ | _wakeup_until _ _ => Returns (VStr Prompt.COMMAND)
    | _do_cmd_resp InstrumentCmds.SET (AVal (VStr k) :: _) _ =>
        if String.eqb k key
        then Raises (Exn InstrumentParameterException "Set command failed")
        else Returns VNone
    | _do_cmd_resp InstrumentCmds.GET [AVal (VStr k)] _ =>
        Returns (VStr (k ++ " = 0"))
    | _do_cmd_resp _ _ _ => Returns (VStr "ok")
    | _ => Returns VNone
    end).

End Startup.

(* ===================================================================== *)
(** * Properties of the frame sieve                                       *)
(* ===================================================================== *)

Module SieveProps.

Import Sieve Examples.

Section Finditer.

Variable re : regex.
Variable raw : buffer.

(** The scan never reports a match that starts before its position. *)
Lemma finditer_loop_ge (fuel i : nat) (c : chunk) :
  In c (finditer_loop re raw fuel i) -> i <= fst c.
Proof.
  revert i. induction fuel as [|fuel IH]; intros i; simpl; [tauto|].
  destruct (length raw <? i); [simpl; tauto|].
  destruct (re raw i) as [e|].
  - intros [<- | Hin]; [simpl; lia|].
    apply IH in Hin. destruct (e <=? i) eqn:E; [lia|].
    apply Nat.leb_gt in E. lia.
  - intros Hin. apply IH in Hin. lia.
Qed.

(** Every reported match is a match of the pattern at its start. *)
Lemma finditer_loop_matches (fuel i : nat) (c : chunk) :
  In c (finditer_loop re raw fuel i) -> re raw (fst c) = Some (snd c).
Proof.
  revert i. induction fuel as [|fuel IH]; intros i; simpl; [tauto|].
  destruct (length raw <? i); [simpl; tauto|].
  destruct (re raw i) as [e|] eqn:E.
  - intros [<- | Hin]; [exact E | eauto].
  - eauto.
Qed.

(** The matches come in strictly ascending order of their starts. *)
Lemma finditer_loop_ascending (fuel i : nat) :
  strictly_ascending_starts (finditer_loop re raw fuel i).
Proof.
  revert i. induction fuel as [|fuel IH]; intros i; simpl.
  - constructor.
  - destruct (length raw <? i); [constructor|].
    destruct (re raw i) as [e|]; [|apply IH].
    constructor; [apply IH|].
    apply Forall_forall. intros c Hin. apply finditer_loop_ge in Hin.
    simpl. destruct (e <=? i) eqn:E; [lia|].
    apply Nat.leb_gt in E. lia.
Qed.

Lemma finditer_ascending (pos : nat) :
  strictly_ascending_starts (finditer re raw pos).
Proof. apply finditer_loop_ascending. Qed.

End Finditer.

(** A match of [\x7f\x7f(.{n})] starts at a sync marker and lies within
    the buffer. *)
Lemma sync_then_Some (n : nat) (raw : buffer) (i e : nat) :
  sync_then n raw i = Some e ->
  sync_at raw i = true /\ e = i + 2 + n /\ e <= length raw.
Proof.
  unfold sync_then. destruct (sync_at raw i); simpl; [|discriminate].
  destruct (i + 2 + n <=? length raw) eqn:E; [|discriminate].
  apply Nat.leb_le in E. intros [= <-]. auto.
Qed.

Lemma filter_start_none (p : nat) (l : list chunk) :
  (forall c, In c l -> p < fst c) -> filter (fun m => p =? fst m) l = [].
Proof.
  induction l as [|a l IH]; intros H; simpl; [reflexivity|].
  destruct (p =? fst a) eqn:E.
  - apply Nat.eqb_eq in E. specialize (H a (or_introl eq_refl)). lia.
  - apply IH. intros c Hc. apply H. now right.
Qed.

(** The inner loop keeps at most the match anchored at [outer_pos]: the
    sync marker there, followed by the declared number of bytes. *)
Lemma pd0_inner_spec (raw : buffer) (p : nat) :
  pd0_inner raw p =
  if sync_at raw p && (p + 2 + unpack_H raw p <=? length raw)
  then [(p, p + 2 + unpack_H raw p)] else [].
Proof.
  unfold pd0_inner, finditer. simpl finditer_loop.
  destruct (length raw <? p) eqn:Hlt.
  - apply Nat.ltb_lt in Hlt.
    replace (p + 2 + unpack_H raw p <=? length raw) with false
      by (symmetry; apply Nat.leb_gt; lia).
    now rewrite andb_false_r.
  - unfold sync_then at 1.
    destruct (sync_at raw p && (p + 2 + unpack_H raw p <=? length raw)); simpl.
    + rewrite Nat.eqb_refl. f_equal.
      apply filter_start_none. intros c Hc. apply finditer_loop_ge in Hc.
      destruct (p + 2 + unpack_H raw p <=? p) eqn:E; [lia|].
      apply Nat.leb_gt in E. lia.
    + apply filter_start_none. intros c Hc. apply finditer_loop_ge in Hc. lia.
Qed.

Lemma flat_map_agree (f g : chunk -> list chunk) (l : list chunk) :
  (forall m, In m l -> f m = g m) -> flat_map f l = flat_map g l.
Proof.
  induction l as [|a l IH]; intros H; simpl; [reflexivity|].
  rewrite (H a (or_introl eq_refl)), IH; [reflexivity|].
  intros m Hm. apply H. now right.
Qed.

(** The PD0 branch emits [(p, p + 2 + length)] for every match [p] of the
    outer scan whose declared length fits in the buffer. *)
Lemma pd0_chunks_spec (raw : buffer) :
  pd0_chunks raw =
  flat_map (fun m => if fst m + 2 + unpack_H raw (fst m) <=? length raw
                     then [(fst m, fst m + 2 + unpack_H raw (fst m))] else [])
           (finditer (sync_then 2) raw 0).
Proof.
  unfold pd0_chunks. apply flat_map_agree. intros m Hm.
  rewrite pd0_inner_spec.
  apply finditer_loop_matches, sync_then_Some in Hm. now destruct Hm as [-> _].
Qed.

(** The chunks of the PD0 branch, one by one. *)
Lemma in_pd0_chunks (raw : buffer) (c : chunk) :
  In c (pd0_chunks raw) <->
  exists m, In m (finditer (sync_then 2) raw 0) /\
            fst m + 2 + unpack_H raw (fst m) <= length raw /\
            c = (fst m, fst m + 2 + unpack_H raw (fst m)).
Proof.
  rewrite pd0_chunks_spec, in_flat_map. split.
  - intros (m & Hm & Hc). exists m. split; [exact Hm|].
    destruct (_ <=? _) eqn:E; [|destruct Hc].
    apply Nat.leb_le in E. destruct Hc as [<- | []]. auto.
  - intros (m & Hm & Hfit & ->). exists m. split; [exact Hm|].
    rewrite (proj2 (Nat.leb_le _ _) Hfit). now left.
Qed.

Lemma flat_map_ascending (f : chunk -> list chunk) (l : list chunk) :
  (forall m, f m = [] \/ exists e, f m = [(fst m, e)]) ->
  strictly_ascending_starts l ->
  strictly_ascending_starts (flat_map f l).
Proof.
  intros Hf. induction 1 as [|a l Hs IH Ha]; simpl; [constructor|].
  destruct (Hf a) as [-> | [e ->]]; simpl; [exact IH|].
  constructor; [exact IH|].
  apply Forall_forall. intros c Hc. apply in_flat_map in Hc.
  destruct Hc as (m & Hm & Hc). rewrite Forall_forall in Ha.
  specialize (Ha m Hm). simpl.
  destruct (Hf m) as [E | [e' E]]; rewrite E in Hc; simpl in Hc;
    [tauto | destruct Hc as [<- | []]; simpl; lia].
Qed.

Lemma pd0_chunks_ascending (raw : buffer) :
  strictly_ascending_starts (pd0_chunks raw).
Proof.
  rewrite pd0_chunks_spec. apply flat_map_ascending.
  - intros m. destruct (_ <=? _); eauto.
  - apply finditer_ascending.
Qed.

(** The sieve lists the chunks matcher by matcher. *)
Lemma sieve_function_unfold (sysconf compass : regex) (raw : buffer) :
  sieve_function sysconf compass raw =
  pd0_chunks raw ++ finditer sysconf raw 0 ++ finditer compass raw 0.
Proof. unfold sieve_function. simpl. now rewrite <- app_assoc. Qed.

Lemma flat_map_nil (f : chunk -> list chunk) (l : list chunk) :
  (forall m, In m l -> f m = []) -> flat_map f l = [].
Proof.
  induction l as [|a l IH]; intros H; simpl; [reflexivity|].
  rewrite (H a (or_introl eq_refl)), IH; [reflexivity|].
  intros m Hm. apply H. now right.
Qed.

(** C1, as stated, fails.  The buffer holds one record of declared length
    8, closed by the next sync marker; the sync marker in its payload fails
    the trailing-marker check, yet the sieve emits it as a second chunk, and
    the chunk of the record itself is (0, 10), not (0, 8). *)
Lemma sieve_emits_marker_in_payload :
  one_record record_with_marker_in_payload 8 /\
  spurious_marker record_with_marker_in_payload 8 4 /\
  sieve_function sysconf_re compass_re record_with_marker_in_payload
  = [(0, 10); (4, 7)].
Proof.
  unfold one_record, spurious_marker. vm_compute. repeat split; lia.
Qed.

(** C1, amended.  The binary chunks of the sieve are those of the PD0
    branch, and a chunk (s, e) is among them exactly when s is the start of
    a match of the left-to-right, non-overlapping scan for the sync marker
    and two more bytes, e = s + 2 + length for the length declared there,
    and the buffer holds that many bytes; there is no trailing-marker
    check.  Hence, for a buffer that starts with a complete record, the
    sieve returns exactly one binary chunk, (0, 2 + length), if and only
    if every later sync marker found by the scan declares more bytes than
    the buffer holds; a sync marker at the end of the buffer whose length
    bytes have not arrived is not found by the scan. *)
Theorem sieve_single_record (sysconf compass : regex) (raw : buffer) :
  sieve_function sysconf compass raw
  = pd0_chunks raw ++ finditer sysconf raw 0 ++ finditer compass raw 0 /\
  (forall s e, In (s, e) (pd0_chunks raw) <->
     (exists e', In (s, e') (finditer (sync_then 2) raw 0)) /\
     e = s + 2 + unpack_H raw s /\ e <= length raw) /\
  (sync_at raw 0 = true -> 4 <= length raw ->
   2 + unpack_H raw 0 <= length raw ->
   ((forall m, In m (finditer (sync_then 2) raw 0) -> 0 < fst m ->
               length raw < fst m + 2 + unpack_H raw (fst m)) <->
    sieve_function sysconf compass raw
    = (0, 2 + unpack_H raw 0)
      :: finditer sysconf raw 0 ++ finditer compass raw 0)).
Proof.
  split; [apply sieve_function_unfold|]. split.
  - intros s e. rewrite in_pd0_chunks. split.
    + intros ([s' e'] & Hm & Hfit & [= -> ->]). cbn [fst] in *. eauto.
    + intros ((e' & Hm) & -> & Hfit). exists (s, e'). auto.
  - intros Hsync Hlen Hfit.
    rewrite sieve_function_unfold, pd0_chunks_spec.
    assert (Hscan : finditer (sync_then 2) raw 0
                    = (0, 4) :: finditer_loop (sync_then 2) raw (length raw) 4).
    { unfold finditer. cbn [finditer_loop].
      change (length raw <? 0) with false. cbv iota.
      unfold sync_then at 1. rewrite Hsync.
      rewrite (proj2 (Nat.leb_le _ _)) by lia. reflexivity. }
    rewrite Hscan. cbn [flat_map fst].
    rewrite (proj2 (Nat.leb_le (0 + 2 + unpack_H raw 0) _)) by lia.
    change (0 + 2 + unpack_H raw 0) with (2 + unpack_H raw 0).
    cbn [app]. split.
    + intros Hlater. rewrite flat_map_nil; [reflexivity|].
      intros m Hm.
      pose proof (finditer_loop_ge _ _ _ _ _ Hm) as Hge.
      rewrite (proj2 (Nat.leb_gt _ _)); [reflexivity|].
      apply Hlater; [now right | lia].
    + intros Heq. injection Heq as Heq.
      apply (app_inv_tail _ _ []) in Heq.
      intros m [<- | Hm] Hpos; [cbn in Hpos; lia|].
      destruct (fst m + 2 + unpack_H raw (fst m) <=? length raw) eqn:E;
        [|now apply Nat.leb_gt in E].
      exfalso. eapply in_nil. rewrite <- Heq.
      apply in_flat_map. exists m. split; [exact Hm|].
      rewrite E. now left.
Qed.

Lemma sieve_single_record_witness :
  one_record record_closed_by_marker 10 /\
  spurious_marker record_closed_by_marker 10 4 /\
  sieve_function sysconf_re compass_re record_closed_by_marker = [(0, 12)].
Proof.
  split; [|split].
  - unfold one_record. vm_compute. repeat split; lia.
  - unfold spurious_marker. vm_compute. repeat split; lia.
  - destruct (sieve_single_record sysconf_re compass_re
                record_closed_by_marker) as (_ & _ & H).
    refine (proj1 (H _ _ _) _).
    + reflexivity.
    + apply Nat.leb_le. vm_compute. reflexivity.
    + apply Nat.leb_le. vm_compute. reflexivity.
    + intros m Hm Hpos. vm_compute in Hm.
      destruct Hm as [<- | [<- | []]].
      * inversion Hpos.
      * apply Nat.ltb_lt. vm_compute. reflexivity.
Defined.

(** C8, as stated, fails: a system configuration block that precedes a
    PD0 record is listed after it. *)
Lemma sieve_not_ascending_across_kinds :
  sieve_function sysconf_re compass_re block_then_record = [(18, 22); (0, 18)] /\
  ~ ascending_starts (sieve_function sysconf_re compass_re block_then_record).
Proof.
  assert (E : sieve_function sysconf_re compass_re block_then_record
              = [(18, 22); (0, 18)]) by (vm_compute; reflexivity).
  split; [exact E|].
  rewrite E. intros H. inversion H as [|a l _ Hall]; subst.
  inversion Hall as [|b l' Hlt _]; subst. simpl in Hlt. lia.
Qed.

(** C8, amended: the sieve lists the chunks kind by kind, in the order of
    [sieve_matchers] (PD0 records, then system configuration blocks, then
    compass calibration blocks); within each kind the chunks are in
    strictly ascending order of their start offsets. *)
Theorem sieve_ascending_within_kind (sysconf compass : regex) (raw : buffer) :
  sieve_function sysconf compass raw =
  pd0_chunks raw ++ finditer sysconf raw 0 ++ finditer compass raw 0 /\
  strictly_ascending_starts (pd0_chunks raw) /\
  strictly_ascending_starts (finditer sysconf raw 0) /\
  strictly_ascending_starts (finditer compass raw 0).
Proof.
  split; [apply sieve_function_unfold|].
  split; [apply pd0_chunks_ascending|].
  split; apply finditer_ascending.
Qed.

End SieveProps.

(* ===================================================================== *)
(** * Properties of the protocol handlers                                 *)
(* ===================================================================== *)

Module ProtocolProps.

Import Protocol Examples.
Local Open Scope string_scope.
Local Open Scope py_scope.

Section Generic.

Variable W : Type.
Variable dev : instrument W.

(** ** Computations that leave the state machine alone *)

Lemma keeps_ret {A} (a : A) : keeps_state (@ret W A a).
Proof. intros st r st' [= _ <-]. reflexivity. Qed.

Lemma keeps_raise {A} (e : exn) : keeps_state (@raise W A e).
Proof. intros st r st' [= _ <-]. reflexivity. Qed.

Lemma keeps_bind {A B} (m : M W A) (k : A -> M W B) :
  keeps_state m -> (forall a, keeps_state (k a)) -> keeps_state (bind m k).
Proof.
  intros Hm Hk st r st'. unfold bind.
  destruct (m st) as [[a|e] s1] eqn:E; apply Hm in E.
  - intros H. apply Hk in H. congruence.
  - intros [= _ <-]. exact E.
Qed.

Lemma keeps_perform (c : call) : keeps_state (perform dev c).
Proof.
  intros st r st'. unfold perform.
  destruct (respond dev c (world st)) as [[v|e] w']; intros [= _ <-]; reflexivity.
Qed.

Lemma keeps_sleep (ms : nat) : keeps_state (sleep dev ms).
Proof. intros st r st' [= _ <-]. reflexivity. Qed.

Lemma keeps_get_timestamp_delayed (fmt : string) :
  keeps_state (get_timestamp_delayed dev fmt).
Proof.
  intros st r st'. unfold get_timestamp_delayed.
  destruct (timestamp dev fmt (world st)); intros [= _ <-]; reflexivity.
Qed.

Lemma keeps_get_config : keeps_state (get_config dev).
Proof. intros st r st' [= _ <-]. reflexivity. Qed.

Lemma keeps_try_except_class {A} (cls : exn_class) (m h : M W A) :
  keeps_state m -> keeps_state h -> keeps_state (try_except_class cls m h).
Proof.
  intros Hm Hh st r st'. unfold try_except_class.
  destruct (m st) as [[a|e] s1] eqn:E; apply Hm in E.
  - intros [= _ <-]. exact E.
  - destruct (exn_class_eqb _ _).
    + intros H. apply Hh in H. congruence.
    + intros [= _ <-]. exact E.
Qed.

Lemma keeps_try_except {A} (m : M W A) (h : exn -> M W A) :
  keeps_state m -> (forall e, keeps_state (h e)) -> keeps_state (try_except m h).
Proof.
  intros Hm Hh st r st'. unfold try_except.
  destruct (m st) as [[a|e] s1] eqn:E; apply Hm in E.
  - intros [= _ <-]. exact E.
  - destruct (is_Exception e).
    + intros H. apply Hh in H. congruence.
    + intros [= _ <-]. exact E.
Qed.

Lemma keeps_try_finally {A B} (m : M W A) (c : M W B) :
  keeps_state m -> keeps_state c -> keeps_state (try_finally m c).
Proof.
  intros Hm Hc st r st'. unfold try_finally.
  destruct (m st) as [r1 s1] eqn:E; apply Hm in E.
  destruct (c s1) as [[b|e] s2] eqn:E2; apply Hc in E2;
    intros [= _ <-]; congruence.
Qed.

Create HintDb keeps.
#[local] Hint Resolve keeps_ret keeps_raise keeps_perform keeps_sleep
  keeps_get_timestamp_delayed keeps_get_config : keeps.
#[local] Hint Extern 2 (keeps_state (bind _ _)) =>
  apply keeps_bind; [|intros ?] : keeps.
#[local] Hint Extern 2 (keeps_state (try_except_class _ _ _)) =>
  apply keeps_try_except_class : keeps.
#[local] Hint Extern 2 (keeps_state (try_except _ _)) =>
  apply keeps_try_except; [|intros ?] : keeps.
#[local] Hint Extern 2 (keeps_state (try_finally _ _)) =>
  apply keeps_try_finally : keeps.
#[local] Hint Extern 3 (keeps_state (if ?b then _ else _)) => destruct b : keeps.
#[local] Hint Extern 3 (keeps_state (match ?x with _ => _ end)) => destruct x : keeps.

Lemma keeps_send_break : keeps_state (_send_break dev).
Proof. unfold _send_break. auto 20 with keeps. Qed.

Lemma keeps_is_logging (t : arg) : keeps_state (_is_logging dev t).
Proof. unfold _is_logging. auto 20 with keeps. Qed.

Lemma keeps_start_logging (t : nat) : keeps_state (_start_logging dev t).
Proof.
  unfold _start_logging. pose proof keeps_is_logging. auto 20 with keeps.
Qed.

Lemma keeps_stop_logging (t : arg) : keeps_state (_stop_logging dev t).
Proof.
  unfold _stop_logging.
  pose proof keeps_is_logging. pose proof keeps_send_break.
  auto 20 with keeps.
Qed.

(** ** The probe *)

(** [_is_logging] makes one call, the wake-up, and reports logging unless
    the wake-up returned the command prompt. *)
Lemma is_logging_spec (t : arg) (st : state W) :
  _is_logging dev t st =
  match respond dev (_wakeup TIMEOUT 300) (world st) with
  | (Returns v, w') =>
      (Ok (VBool (negb (pyval_eqb (VStr Prompt.COMMAND) v))),
       State w' (trace st ++ [Call (_wakeup TIMEOUT 300)]) (current_state st))
  | (Raises e, w') =>
      (Raise e,
       State w' (trace st ++ [Call (_wakeup TIMEOUT 300)]) (current_state st))
  end.
Proof.
  unfold _is_logging, bind, perform.
  destruct (respond dev (_wakeup TIMEOUT 300) (world st)) as [[v|e] w'];
    [|reflexivity].
  destruct (pyval_eqb (VStr Prompt.COMMAND) v); reflexivity.
Qed.

Lemma is_logging_trace (t : arg) (st st1 : state W) (r : result pyval) :
  _is_logging dev t st = (r, st1) ->
  trace st1 = (trace st ++ [Call (_wakeup TIMEOUT 300)])%list.
Proof.
  rewrite is_logging_spec.
  destruct (respond dev (_wakeup TIMEOUT 300) (world st)) as [[v|e] w'];
    intros [= _ <-]; reflexivity.
Qed.

(** The probe never answers [None]. *)
Lemma is_logging_bool (t : arg) (st st1 : state W) (v : pyval) :
  _is_logging dev t st = (Ok v, st1) -> exists b, v = VBool b.
Proof.
  rewrite is_logging_spec.
  destruct (respond dev (_wakeup TIMEOUT 300) (world st)) as [[v'|e] w'];
    intros [= <- _]; eauto.
Qed.

(** ** Starting and stopping logging *)

(** C10: when the probe reports that the instrument is logging,
    [_start_logging] returns [True] at once; the wake-up of the probe is
    the only call it makes, so START_DEPLOYMENT is not sent. *)
Theorem start_logging_idempotent (timeout : nat) (st st1 : state W) :
  _is_logging dev (AVal (VInt TIMEOUT)) st = (Ok (VBool true), st1) ->
  _start_logging dev timeout st = (Ok (VBool true), st1) /\
  trace st1 = (trace st ++ [Call (_wakeup TIMEOUT 300)])%list.
Proof.
  intros H. split.
  - unfold _start_logging, bind. rewrite H. reflexivity.
  - exact (is_logging_trace _ _ H).
Qed.

(** When the stop command went through and the probe still reports
    logging, [_stop_logging] raises. *)
Lemma stop_logging_still_logging (t : arg) (st st2 st3 : state W) (v : pyval) :
  (sleep dev 2000 ;; _send_break dev ;; sleep dev 1000 ;;
   perform dev (_wakeup_until t Prompt.COMMAND)) st = (Ok v, st2) ->
  _is_logging dev t st2 = (Ok (VBool true), st3) ->
  _stop_logging dev t st
  = (Raise (Exn InstrumentProtocolException "failed to stop logging"), st3).
Proof.
  unfold _stop_logging, bind. cbn [sleep].
  destruct (_send_break dev _) as [[[]|e] s1]; [|discriminate].
  destruct (perform dev _ _) as [[v'|e] s2]; [|discriminate].
  intros [= _ ->] ->. reflexivity.
Qed.

(** C4: a stop request in AUTOSAMPLE sends the break, waits for the
    command prompt and then probes the instrument; when the probe still
    reports logging the request fails with "failed to stop logging" and
    the protocol stays in AUTOSAMPLE. *)
Theorem stop_autosample_verifies (args : list arg) (kw : kwargs)
    (st st2 st3 : state W) (v : pyval) :
  current_state st = ProtocolState.AUTOSAMPLE ->
  (sleep dev 2000 ;; _send_break dev ;; sleep dev 1000 ;;
   perform dev (_wakeup_until (AVal (VInt (get_timeout kw TIMEOUT))) Prompt.COMMAND)) st
  = (Ok v, st2) ->
  _is_logging dev (AVal (VInt (get_timeout kw TIMEOUT))) st2 = (Ok (VBool true), st3) ->
  on_event dev ProtocolEvent.STOP_AUTOSAMPLE args kw st
  = (Raise (Exn InstrumentProtocolException "failed to stop logging"), st3) /\
  current_state st3 = ProtocolState.AUTOSAMPLE /\
  trace st3 = (trace st2 ++ [Call (_wakeup TIMEOUT 300)])%list.
Proof.
  intros Hst Hstop Hprobe.
  pose proof (stop_logging_still_logging _ _ Hstop Hprobe) as Hraise.
  split; [|split].
  - unfold on_event, bind at 1, get_current_state. rewrite Hst.
    cbn [state_handlers]. unfold _handler_autosample_stop_autosample, bind.
    rewrite Hraise. reflexivity.
  - apply keeps_stop_logging in Hraise. congruence.
  - exact (is_logging_trace _ _ Hprobe).
Qed.

(** ** Interrupting and restoring logging *)

(** The shape shared by the three handlers, for any [try] block. *)
Lemma interrupt_restore_spec (body : M W pyval) (st st1 st2 : state W)
    (r1 r2 : result pyval) :
  body st = (r1, st1) ->
  _start_logging dev TIMEOUT st1 = (r2, st2) ->
  (r <- try_finally
          (try_except (result <- body ;; ret (result, None))
                      (fun e => ret (VNone, Some e)))
          (_start_logging dev TIMEOUT) ;;
   match snd r with
   | Some error => raise error
   | None => ret (@None ProtocolState.t, VPair VNone (fst r))
   end) st
  = (match r2, r1 with
     | Raise e2, _ => Raise e2
     | Ok _, Raise e1 => Raise e1
     | Ok _, Ok result => Ok (@None ProtocolState.t, VPair VNone result)
     end, st2).
Proof.
  intros Hbody Hrestart.
  unfold bind at 1, try_finally, try_except, bind. rewrite Hbody.
  destruct r1 as [result|e1].
  - cbn. rewrite Hrestart. destruct r2; reflexivity.
  - destruct (is_Exception e1); cbn; rewrite Hrestart; destruct r2; reflexivity.
Qed.

(** [_start_logging], call by call: the wake-up of the probe; when it
    returned the command prompt, START_DEPLOYMENT and a pause of one
    second; for any other prompt nothing more. *)
Lemma start_logging_spec (t : nat) (st : state W) :
  let probe := Call (_wakeup TIMEOUT 300) in
  let start := _do_cmd_no_resp InstrumentCmds.START_DEPLOYMENT []
                               (Kwargs (Some t) None) in
  _start_logging dev t st =
  match respond dev (_wakeup TIMEOUT 300) (world st) with
  | (Raises e, w1) =>
      (Raise e, State w1 (trace st ++ [probe]) (current_state st))
  | (Returns p, w1) =>
      if pyval_eqb (VStr Prompt.COMMAND) p then
        match respond dev start w1 with
        | (Raises e, w2) =>
            (Raise e,
             State w2 (trace st ++ [probe; Call start]) (current_state st))
        | (Returns _, w2) =>
            (Ok (VBool true),
             State (elapse dev 1000 w2)
                   (trace st ++ [probe; Call start; Sleep 1000])
                   (current_state st))
        end
      else (Ok (VBool true), State w1 (trace st ++ [probe]) (current_state st))
  end.
Proof.
  cbv zeta. unfold _start_logging, bind at 1. rewrite is_logging_spec.
  destruct (respond dev (_wakeup TIMEOUT 300) (world st)) as [[p|e] w1];
    [|reflexivity].
  destruct (pyval_eqb (VStr Prompt.COMMAND) p); cbn [negb truthy];
    [|reflexivity].
  unfold bind, perform, sleep, ret. cbn [world trace current_state].
  destruct (respond dev _ w1) as [[v|e] w2];
    cbn [world trace current_state]; rewrite <- ?app_assoc; reflexivity.
Qed.

(** C2: whatever the [try] block of the get-calibration handler did
    (stopping logging or the calibration command may have raised), the
    handler goes on with the restart of logging from the state the block
    left: it probes the instrument with a wake-up and, when the
    instrument is at the command prompt, sends START_DEPLOYMENT and pauses
    for a second; an instrument that answers with another prompt is taken
    to be logging and is sent nothing more.  When the restart went
    through, the handler raises the exception of the block, if there was
    one, and otherwise returns the result; an exception of the restart is
    raised as it is. *)
Theorem get_calibration_restarts_logging (args : list arg) (kw : kwargs)
    (st st1 : state W) (r1 : result pyval) :
  autosample_get_calibration_try dev args kw st = (r1, st1) ->
  let probe := Call (_wakeup TIMEOUT 300) in
  let start := _do_cmd_no_resp InstrumentCmds.START_DEPLOYMENT []
                               (Kwargs (Some TIMEOUT) None) in
  let outcome := match r1 with
                 | Raise e => Raise e
                 | Ok result => Ok (@None ProtocolState.t, VPair VNone result)
                 end in
  _handler_autosample_get_calibration dev args kw st =
  match respond dev (_wakeup TIMEOUT 300) (world st1) with
  | (Raises e2, w2) =>
      (Raise e2, State w2 (trace st1 ++ [probe]) (current_state st1))
  | (Returns p, w2) =>
      if pyval_eqb (VStr Prompt.COMMAND) p then
        match respond dev start w2 with
        | (Raises e2, w3) =>
            (Raise e2,
             State w3 (trace st1 ++ [probe; Call start]) (current_state st1))
        | (Returns _, w3) =>
            (outcome,
             State (elapse dev 1000 w3)
                   (trace st1 ++ [probe; Call start; Sleep 1000])
                   (current_state st1))
        end
      else (outcome, State w2 (trace st1 ++ [probe]) (current_state st1))
  end.
Proof.
  intros Hbody. cbv zeta.
  unfold _handler_autosample_get_calibration.
  rewrite (interrupt_restore_spec _ _ Hbody (surjective_pairing _)).
  rewrite start_logging_spec. cbv zeta.
  destruct (respond dev (_wakeup TIMEOUT 300) (world st1)) as [[p|e2] w2];
    [|reflexivity].
  destruct (pyval_eqb (VStr Prompt.COMMAND) p); [|destruct r1; reflexivity].
  destruct (respond dev _ w2) as [[v|e2] w3]; [destruct r1|]; reflexivity.
Qed.

(** The three handlers alike (get calibration, get configuration,
    scheduled clock sync): when the [try] block raises and the restart of
    logging raises too, the handler raises the exception of the restart;
    [raise error] is not reached and the exception of the block is
    dropped. *)
Lemma restart_failure_replaces_original (ev : ProtocolEvent.t)
    (body : list arg -> kwargs -> M W pyval)
    (handler : list arg -> kwargs -> M W handler_result)
    (args : list arg) (kw : kwargs) (st st1 st2 : state W) (e1 e2 : exn) :
  autosample_try dev ev = Some body ->
  state_handlers dev ProtocolState.AUTOSAMPLE ev = Some handler ->
  body args kw st = (Raise e1, st1) ->
  _start_logging dev TIMEOUT st1 = (Raise e2, st2) ->
  handler args kw st = (Raise e2, st2).
Proof.
  intros Hbody Hhandler Hrun Hrestart.
  destruct ev; try discriminate Hbody;
    injection Hbody as <-; injection Hhandler as <-;
    [ unfold _handler_autosample_get_calibration
    | unfold _handler_autosample_get_configuration
    | unfold _handler_autosample_clock_sync ];
    exact (interrupt_restore_spec _ _ Hrun Hrestart).
Qed.

(** ** Discovery *)


(** ** Starting autosample *)

(** The start request in COMMAND, call by call. *)
Lemma start_autosample_spec (args : list arg) (kw : kwargs) (st : state W) :
  current_state st = ProtocolState.COMMAND ->
  let kw' := Kwargs (Some 30) (Some Prompt.COMMAND) in
  let fmt := "%Y/%m/%d, %H:%M:%S" in
  on_event dev ProtocolEvent.START_AUTOSAMPLE args kw st =
  let (now, w0) := timestamp dev fmt (world st) in
  let set_time := _do_cmd_resp InstrumentCmds.SET
                    [AVal (VStr Param.TIME); AVal (VStr now)] kw' in
  let save := _do_cmd_resp InstrumentCmds.SAVE_SETUP_TO_RAM args kw' in
  let start := _do_cmd_no_resp InstrumentCmds.START_DEPLOYMENT args kw' in
  let t1 := (trace st ++ [GetTimestamp fmt; Call set_time])%list in
  match respond dev set_time w0 with
  | (Raises e, w1) => (Raise e, State w1 t1 ProtocolState.COMMAND)
  | (Returns _, w1) =>
  match respond dev save w1 with
  | (Raises e, w2) => (Raise e, State w2 (t1 ++ [Call save]) ProtocolState.COMMAND)
  | (Returns _, w2) =>
  match respond dev start w2 with
  | (Raises e, w3) =>
      (Raise e, State w3 (t1 ++ [Call save; Call start]) ProtocolState.COMMAND)
  | (Returns _, w3) =>
  let t4 := (t1 ++ [Call save; Call start;
                    Call (_driver_event DriverAsyncEvent.STATE_CHANGE)])%list in
  match respond dev (_driver_event DriverAsyncEvent.STATE_CHANGE) w3 with
  | (Raises e, w4) => (Raise e, State w4 t4 ProtocolState.AUTOSAMPLE)
  | (Returns _, w4) =>
      (Ok (VPair (VAgentState ResourceAgentState.STREAMING) VNone),
       State w4 t4 ProtocolState.AUTOSAMPLE)
  end end end end.
Proof.
  destruct st as [w tr cs]. cbn [current_state world trace].
  intros ->. cbv zeta.
  unfold on_event, bind at 1, get_current_state.
  cbn [current_state state_handlers].
  unfold _handler_command_start_autosample, bind, get_timestamp_delayed.
  cbn [world]. destruct (timestamp dev _ w) as [now w0].
  unfold perform at 1. cbn [world trace current_state].
  destruct (respond dev _ w0) as [[v1|e1] w1];
    [|rewrite <- ?app_assoc; reflexivity].
  unfold perform at 1. cbn [world trace current_state].
  destruct (respond dev _ w1) as [[v2|e2] w2];
    [|rewrite <- ?app_assoc; reflexivity].
  unfold perform at 1. cbn [world trace current_state].
  destruct (respond dev _ w2) as [[v3|e3] w3];
    [|rewrite <- ?app_assoc; reflexivity].
  unfold exit_handler, set_current_state, bind, ret.
  cbn [fst snd enter_handler world trace current_state].
  unfold _handler_autosample_enter, bind, perform, ret.
  cbn [world trace current_state].
  destruct (respond dev _ w3) as [[v4|e4] w4];
    rewrite <- ?app_assoc; reflexivity.
Qed.

(** C7: a start request in COMMAND reads the clock, sets TIME, saves the
    setup and sends START_DEPLOYMENT, in this order; the first of the three
    commands that raises ends the sequence (no later command is sent), its
    exception is passed on and the protocol stays in COMMAND; when all
    three return the protocol is in AUTOSAMPLE. *)
Theorem start_autosample_sequence (args : list arg) (kw : kwargs)
    (st : state W) :
  current_state st = ProtocolState.COMMAND ->
  let kw' := Kwargs (Some 30) (Some Prompt.COMMAND) in
  let fmt := "%Y/%m/%d, %H:%M:%S" in
  let now := timestamp dev fmt (world st) in
  let set_time := _do_cmd_resp InstrumentCmds.SET
                    [AVal (VStr Param.TIME); AVal (VStr (fst now))] kw' in
  let save := _do_cmd_resp InstrumentCmds.SAVE_SETUP_TO_RAM args kw' in
  let start := _do_cmd_no_resp InstrumentCmds.START_DEPLOYMENT args kw' in
  let o1 := respond dev set_time (snd now) in
  let o2 := respond dev save (snd o1) in
  let o3 := respond dev start (snd o2) in
  let final := on_event dev ProtocolEvent.START_AUTOSAMPLE args kw st in
  match fst o1, fst o2, fst o3 with
  | Raises e, _, _ =>
      fst final = Raise e /\
      current_state (snd final) = ProtocolState.COMMAND /\
      trace (snd final) = (trace st ++ [GetTimestamp fmt; Call set_time])%list
  | Returns _, Raises e, _ =>
      fst final = Raise e /\
      current_state (snd final) = ProtocolState.COMMAND /\
      trace (snd final)
      = (trace st ++ [GetTimestamp fmt; Call set_time; Call save])%list
  | Returns _, Returns _, Raises e =>
      fst final = Raise e /\
      current_state (snd final) = ProtocolState.COMMAND /\
      trace (snd final)
      = (trace st ++ [GetTimestamp fmt; Call set_time; Call save; Call start])%list
  | Returns _, Returns _, Returns _ =>
      current_state (snd final) = ProtocolState.AUTOSAMPLE /\
      trace (snd final)
      = (trace st ++ [GetTimestamp fmt; Call set_time; Call save; Call start;
                      Call (_driver_event DriverAsyncEvent.STATE_CHANGE)])%list
  end.
Proof.
  intros Hst. cbv zeta. rewrite (start_autosample_spec args kw st Hst).
  destruct (timestamp dev _ (world st)) as [now w0]. cbn [fst snd].
  destruct (respond dev _ w0) as [[v1|e1] w1]; cbn [fst snd];
    [|repeat split].
  destruct (respond dev _ w1) as [[v2|e2] w2]; cbn [fst snd];
    [|repeat split; cbn [trace]; now rewrite <- app_assoc].
  destruct (respond dev _ w2) as [[v3|e3] w3]; cbn [fst snd];
    [|repeat split; cbn [trace]; now rewrite <- app_assoc].
  destruct (respond dev _ w3) as [[v4|e4] w4];
    repeat split; cbn [snd trace]; now rewrite <- app_assoc.
Qed.

(** ** Refreshing the parameters *)

Lemma update_params_loop_app (done rest : list string) (kw : kwargs)
    (results : string) (key : option string) (st : state W) :
  update_params_loop dev (done ++ rest) kw results key st =
  match update_params_loop dev done kw results key st with
  | (Ok r, st1) => update_params_loop dev rest kw (fst r) (snd r) st1
  | (Raise e, st1) => (Raise e, st1)
  end.
Proof.
  revert results key st.
  induction done as [|k done IH]; intros results key st; [reflexivity|].
  cbn [app update_params_loop]. unfold bind.
  destruct (perform dev _ st) as [[v|e] s1]; [|reflexivity].
  destruct v; try reflexivity. apply IH.
Qed.

(** A loop that completes has made one GET per key, in order. *)
Lemma update_params_loop_trace (keys : list string) (kw : kwargs)
    (results : string) (key : option string) (st st1 : state W)
    (r : string * option string) :
  update_params_loop dev keys (Kwargs (timeout kw) (Some Prompt.COMMAND))
                     results key st = (Ok r, st1) ->
  trace st1 = (trace st ++ map (get_call kw) keys)%list /\
  current_state st1 = current_state st.
Proof.
  revert results key st.
  induction keys as [|k keys IH]; intros results key st; cbn [update_params_loop].
  - intros [= _ <-]. now rewrite app_nil_r.
  - unfold bind, perform.
    destruct (respond dev _ (world st)) as [[v|e] w']; [|discriminate].
    destruct v; try discriminate.
    intros H. apply IH in H. cbn [trace current_state] in H.
    destruct H as [-> ->]. now rewrite <- app_assoc.
Qed.

(** The loop leaves in [key] the last key it visited. *)
Lemma update_params_loop_key (keys : list string) (kw : kwargs)
    (results : string) (key : option string) (st st1 : state W)
    (r : string * option string) :
  update_params_loop dev keys kw results key st = (Ok r, st1) ->
  snd r = match keys with
          | [] => key
          | _ :: _ => Some (last keys "")
          end.
Proof.
  revert results key st.
  induction keys as [|k keys IH]; intros results key st; cbn [update_params_loop].
  - now intros [= <- _].
  - unfold bind.
    destruct (perform dev _ st) as [[v|e] s1]; [|discriminate].
    destruct v; try discriminate.
    intros H. apply IH in H. rewrite H.
    destruct keys; reflexivity.
Qed.

(** C3, amended.  The GETs of a refresh are those of the declared
    parameters, in the sorted order of the attribute names, followed by a
    second GET for the last of them.  When the wake-up and the GETs before
    one of these went through and that GET raises, be it in the loop or
    after it, [_update_params] raises that exception at once.  The calls
    made are the wake-up and the GETs up to and including the failing one;
    no later GET is issued, and the instrument is left as the failed GET
    left it. *)
Theorem update_params_aborts_on_failure (kw : kwargs) (st st0 st1 : state W)
    (p : pyval) (done rest : list string) (k : string)
    (r : string * option string) (e : exn) (w2 : W) :
  (update_params_keys ++ [Param.XMIT_POWER] = done ++ k :: rest)%list ->
  perform dev (_wakeup TIMEOUT 300) st = (Ok p, st0) ->
  update_params_loop dev done (Kwargs (timeout kw) (Some Prompt.COMMAND))
                     "" None st0 = (Ok r, st1) ->
  respond dev (_do_cmd_resp InstrumentCmds.GET [AVal (VStr k)]
                           (Kwargs (timeout kw) (Some Prompt.COMMAND)))
          (world st1) = (Raises e, w2) ->
  _update_params dev kw st
  = (Raise e,
     State w2
           (trace st ++ Call (_wakeup TIMEOUT 300)
                        :: map (get_call kw) (done ++ [k]))
           (current_state st)).
Proof.
  intros Hkeys Hwake Hdone Hfail.
  assert (Hcases :
            (done = update_params_keys /\ k = Param.XMIT_POWER) \/
            (exists rest', update_params_keys = done ++ k :: rest')%list).
  { destruct rest as [|x rest0].
    - left. apply app_inj_tail in Hkeys. destruct Hkeys as [<- <-]. auto.
    - right. destruct (@exists_last _ (x :: rest0)) as (rest' & a & Hr);
        [discriminate|].
      rewrite Hr, app_comm_cons, app_assoc in Hkeys.
      apply app_inj_tail in Hkeys. destruct Hkeys as [Hk _].
      exists rest'. exact Hk. }
  pose proof Hdone as Htrace. apply update_params_loop_trace in Htrace.
  destruct Htrace as [Htrace Hstate].
  unfold _update_params, bind at 1. rewrite Hwake.
  unfold bind at 1, get_config. unfold bind at 1.
  unfold perform in Hwake.
  destruct (respond dev (_wakeup TIMEOUT 300) (world st)) as [[v|e'] w'];
    [|discriminate].
  injection Hwake as _ <-. cbn [trace current_state] in *.
  destruct Hcases as [[-> ->] | [rest' Hloop]].
  - pose proof (update_params_loop_key _ _ _ _ _ Hdone) as Hkey.
    change (snd r = Some Param.XMIT_POWER) in Hkey.
    rewrite Hdone, Hkey. unfold bind, perform. rewrite Hfail.
    rewrite Htrace, Hstate, map_app, <- !app_assoc. reflexivity.
  - rewrite Hloop, update_params_loop_app, Hdone.
    cbn [update_params_loop]. unfold bind, perform. rewrite Hfail.
    rewrite Htrace, Hstate, map_app, <- !app_assoc. reflexivity.
Qed.

(** ** Setting parameters *)

(** C6: when the parameter map names a parameter that is read-only or
    immutable, [_set_params] fails with ReadOnly and leaves the protocol
    as it was: no call is made, so nothing is sent to the instrument. *)
Theorem set_params_rejects_read_only (params : list (string * pyval))
    (startup : arg) (kw : kwargs) (st : state W) (key : string) (val : pyval) :
  In (key, val) params ->
  visibility key = Some ParameterDictVisibility.READ_ONLY \/
  visibility key = Some ParameterDictVisibility.IMMUTABLE ->
  _set_params dev [ADict params; startup] kw st
  = (Raise (Exn ReadOnly "Attempt to set read only parameter(s)"), st).
Proof.
  intros Hin Hvis.
  assert (E : existsb (fun kv => not_settable (fst kv)) params = true).
  { apply existsb_exists. exists (key, val). split; [exact Hin|].
    unfold not_settable. cbn [fst]. now destruct Hvis as [-> | ->]. }
  unfold _set_params, _verify_not_readonly, bind. rewrite E. reflexivity.
Qed.

End Generic.

(** ** The theorems at work on the example instruments *)

Lemma start_logging_idempotent_witness :
  _start_logging at_error_prompt 10 (initial ProtocolState.AUTOSAMPLE)
  = (Ok (VBool true),
     State tt [Call (_wakeup TIMEOUT 300)] ProtocolState.AUTOSAMPLE).
Proof.
  refine (proj1 (@start_logging_idempotent unit at_error_prompt 10
                   (initial ProtocolState.AUTOSAMPLE)
                   (State tt [Call (_wakeup TIMEOUT 300)] ProtocolState.AUTOSAMPLE)
                   _)).
  vm_compute. reflexivity.
Defined.

Lemma stop_autosample_verifies_witness :
  fst (on_event at_error_prompt ProtocolEvent.STOP_AUTOSAMPLE [] no_kwargs
                (initial ProtocolState.AUTOSAMPLE))
  = Raise (Exn InstrumentProtocolException "failed to stop logging") /\
  current_state
    (snd (on_event at_error_prompt ProtocolEvent.STOP_AUTOSAMPLE [] no_kwargs
                   (initial ProtocolState.AUTOSAMPLE)))
  = ProtocolState.AUTOSAMPLE.
Proof.
  pose (stop_sequence :=
          [Sleep 2000; Call socket_socket;
           Call (socket_connect "10.180.80.178" 2102);
           Call (socket_send ("break 300" ++ NEWLINE)); Call socket_close;
           Sleep 1000; Call (_wakeup_until (AVal (VInt TIMEOUT)) Prompt.COMMAND)]).
  destruct (@stop_autosample_verifies unit at_error_prompt [] no_kwargs
              (initial ProtocolState.AUTOSAMPLE)
              (State tt stop_sequence ProtocolState.AUTOSAMPLE)
              (State tt (stop_sequence ++ [Call (_wakeup TIMEOUT 300)])
                     ProtocolState.AUTOSAMPLE)
              (VStr Prompt.COMMAND))
    as (H1 & H2 & _).
  - reflexivity.
  - vm_compute. reflexivity.
  - vm_compute. reflexivity.
  - split.
    + exact (f_equal fst H1).
    + exact (eq_trans (f_equal (fun x => current_state (snd x)) H1) H2).
Defined.

Lemma get_calibration_restarts_logging_witness :
  _handler_autosample_get_calibration calibration_fails [] no_kwargs
    (initial ProtocolState.AUTOSAMPLE)
  = (Raise timed_out,
     State tt
       [Sleep 2000; Call socket_socket;
        Call (socket_connect "10.180.80.178" 2102);
        Call (socket_send ("break 300" ++ NEWLINE)); Call socket_close;
        Sleep 1000;
        Call (_wakeup_until (AVal (VInt TIMEOUT)) Prompt.COMMAND);
        Call (_wakeup TIMEOUT 300);
        Call (_do_cmd_resp InstrumentCmds.OUTPUT_CALIBRATION_DATA []
                           (Kwargs (Some 120) None));
        Call (_wakeup TIMEOUT 300);
        Call (_do_cmd_no_resp InstrumentCmds.START_DEPLOYMENT []
                              (Kwargs (Some TIMEOUT) None));
        Sleep 1000]
       ProtocolState.AUTOSAMPLE).
Proof.
  refine (eq_trans
            (@get_calibration_restarts_logging unit calibration_fails []
               no_kwargs (initial ProtocolState.AUTOSAMPLE)
               (snd (autosample_get_calibration_try calibration_fails []
                       no_kwargs (initial ProtocolState.AUTOSAMPLE)))
               (Raise timed_out) _) _);
    vm_compute; reflexivity.
Defined.

(** C9 at its failing input: the calibration command raises a timeout and
    the restart of logging raises too.  The handler was to put the
    instrument back into streaming and then raise the exception of the
    block; it raises the exception of the restart, and the timeout is
    reported nowhere. *)
Lemma restart_failure_hides_original :
  fst (autosample_get_calibration_try calibration_and_restart_fail [] no_kwargs
         (initial ProtocolState.AUTOSAMPLE))
  = Raise timed_out /\
  fst (_handler_autosample_get_calibration calibration_and_restart_fail []
         no_kwargs (initial ProtocolState.AUTOSAMPLE))
  = Raise start_failed /\
  start_failed <> timed_out.
Proof.
  split; [vm_compute; reflexivity|].
  split; [vm_compute; reflexivity|]. discriminate.
Qed.

Lemma start_autosample_sequence_witness :
  fst (on_event save_setup_fails ProtocolEvent.START_AUTOSAMPLE [] no_kwargs
                (initial ProtocolState.COMMAND))
  = Raise timed_out /\
  current_state
    (snd (on_event save_setup_fails ProtocolEvent.START_AUTOSAMPLE [] no_kwargs
                   (initial ProtocolState.COMMAND)))
  = ProtocolState.COMMAND.
Proof.
  pose proof (@start_autosample_sequence unit save_setup_fails [] no_kwargs
                (initial ProtocolState.COMMAND) eq_refl) as H.
  vm_compute in H. destruct H as (H1 & H2 & _).
  vm_compute. split; [exact H1 | exact H2].
Defined.

(** C3, as stated, fails: the GET for the second key times out; the
    refresh raises the timeout and no GET is issued for the third key. *)
Lemma refresh_stops_at_failed_get :
  fst (_update_params (get_fails "WB") no_kwargs (initial ProtocolState.COMMAND))
  = Raise timed_out /\
  In "CH" update_params_keys /\
  ~ In (get_call no_kwargs "CH")
       (trace (snd (_update_params (get_fails "WB") no_kwargs
                                   (initial ProtocolState.COMMAND)))).
Proof.
  split; [vm_compute; reflexivity|]. split.
  - vm_compute. tauto.
  - vm_compute. intros [H | [H | [H | []]]]; discriminate H.
Qed.

Lemma update_params_aborts_on_failure_witness :
  _update_params (get_fails "WB") no_kwargs (initial ProtocolState.COMMAND)
  = (Raise timed_out,
     State tt [Call (_wakeup TIMEOUT 300); get_call no_kwargs "WV";
               get_call no_kwargs "WB"]
           ProtocolState.COMMAND) /\
  _update_params (get_number_fails 34) no_kwargs
                 (State 0 [] ProtocolState.COMMAND)
  = (Raise timed_out,
     State 35
           (Call (_wakeup TIMEOUT 300)
            :: map (get_call no_kwargs)
                   (update_params_keys ++ [Param.XMIT_POWER]))
           ProtocolState.COMMAND).
Proof.
  split.
  - refine (@update_params_aborts_on_failure unit (get_fails "WB") no_kwargs
              (initial ProtocolState.COMMAND)
              (State tt [Call (_wakeup TIMEOUT 300)] ProtocolState.COMMAND)
              (State tt [Call (_wakeup TIMEOUT 300); get_call no_kwargs "WV"]
                     ProtocolState.COMMAND)
              (VStr Prompt.COMMAND) ["WV"]
              (skipn 2 update_params_keys ++ [Param.XMIT_POWER]) "WB"
              ("WV = 0" ++ NEWLINE, Some "WV") timed_out tt _ _ _ _);
      vm_compute; reflexivity.
  - pose (st0 := State 0 [Call (_wakeup TIMEOUT 300)] ProtocolState.COMMAND).
    pose (run := update_params_loop (get_number_fails 34) update_params_keys
                   (Kwargs None (Some Prompt.COMMAND)) "" None st0).
    refine (@update_params_aborts_on_failure nat (get_number_fails 34)
              no_kwargs (State 0 [] ProtocolState.COMMAND) st0 (snd run)
              (VStr Prompt.COMMAND) update_params_keys [] Param.XMIT_POWER
              (match fst run with Ok r => r | Raise _ => ("", None) end)
              timed_out 35 _ _ _ _);
      vm_compute; reflexivity.
Defined.

Lemma set_params_rejects_read_only_witness :
  _set_params at_command_prompt
              [ADict [(Param.TIME, VStr "2013/02/26,05:28:23")];
               AVal (VBool false)]
              no_kwargs (initial ProtocolState.COMMAND)
  = (Raise (Exn ReadOnly "Attempt to set read only parameter(s)"),
     initial ProtocolState.COMMAND).
Proof.
  refine (@set_params_rejects_read_only unit at_command_prompt
            [(Param.TIME, VStr "2013/02/26,05:28:23")] (AVal (VBool false))
            no_kwargs (initial ProtocolState.COMMAND)
            Param.TIME (VStr "2013/02/26,05:28:23") (or_introl eq_refl) _).
  left. vm_compute. reflexivity.
Defined.

End ProtocolProps.

(* ===================================================================== *)
(** * More on the frame sieve                                             *)
(* ===================================================================== *)

Module FramingProps.

Import Sieve Framing Examples SieveProps.

(** ** What a PD0 chunk is *)

(** X1: every PD0 chunk starts at a sync marker that is followed by its
    two length bytes, ends 2 + length bytes later, and lies within the
    buffer. *)
Theorem pd0_chunk_sound (raw : buffer) (c : chunk) :
  In c (pd0_chunks raw) ->
  sync_at raw (fst c) = true /\
  fst c + 4 <= length raw /\
  snd c = fst c + 2 + unpack_H raw (fst c) /\
  snd c <= length raw.
Proof.
  intros H. apply in_pd0_chunks in H. destruct H as (m & Hm & Hfit & ->).
  apply finditer_loop_matches, sync_then_Some in Hm.
  destruct Hm as (Hs & He & Hle). cbn [fst snd]. repeat split; auto; lia.
Qed.

Lemma pd0_chunk_sound_witness :
  sync_at record_with_marker_in_payload 4 = true /\
  7 <= length record_with_marker_in_payload.
Proof.
  destruct (@pd0_chunk_sound record_with_marker_in_payload (4, 7))
    as (H1 & _ & _ & H4).
  - vm_compute. tauto.
  - exact (conj H1 H4).
Defined.

(** ** Data that arrives later *)

Lemma sync_at_app (raw more : buffer) (i : nat) :
  sync_at raw i = true -> sync_at (raw ++ more) i = true.
Proof.
  unfold sync_at.
  destruct (nth_error raw i) as [a|] eqn:Ea; [|discriminate].
  destruct (nth_error raw (S i)) as [b|] eqn:Eb; [|discriminate].
  rewrite !nth_error_app1 by (apply nth_error_Some; congruence).
  now rewrite Ea, Eb.
Qed.

Lemma sync_at_bound (raw : buffer) (i : nat) :
  sync_at raw i = true -> i + 2 <= length raw.
Proof.
  unfold sync_at.
  destruct (nth_error raw i) as [a|] eqn:Ea; [|discriminate].
  destruct (nth_error raw (S i)) as [b|] eqn:Eb; [|discriminate].
  intros _. assert (S i < length raw) by (apply nth_error_Some; congruence). lia.
Qed.

Lemma unpack_H_app (raw more : buffer) (i : nat) :
  i + 4 <= length raw -> unpack_H (raw ++ more) i = unpack_H raw i.
Proof.
  intros H. unfold unpack_H. now rewrite !nth_error_app1 by lia.
Qed.

(** More fuel only lengthens the scan. *)
Lemma finditer_loop_fuel (re : regex) (raw : buffer) (fuel fuel' i : nat)
    (c : chunk) :
  fuel <= fuel' ->
  In c (finditer_loop re raw fuel i) -> In c (finditer_loop re raw fuel' i).
Proof.
  revert fuel' i. induction fuel as [|fuel IH]; intros fuel' i Hle; [intros []|].
  destruct fuel' as [|fuel']; [lia|]. cbn [finditer_loop].
  destruct (length raw <? i); [intros []|].
  destruct (re raw i) as [e|].
  - intros [<- | H]; [now left | right; apply IH; [lia | exact H]].
  - apply IH. lia.
Qed.

(** A match of the header pattern stays one when data is appended. *)
Lemma finditer_loop_app (raw more : buffer) (fuel i : nat) (c : chunk) :
  In c (finditer_loop (sync_then 2) raw fuel i) ->
  In c (finditer_loop (sync_then 2) (raw ++ more) fuel i).
Proof.
  revert i. induction fuel as [|fuel IH]; intros i; [intros []|].
  cbn [finditer_loop].
  destruct (length raw <? i) eqn:Hi; [intros []|].
  apply Nat.ltb_ge in Hi.
  rewrite (proj2 (Nat.ltb_ge _ _)) by (rewrite length_app; lia).
  destruct (sync_then 2 raw i) as [e|] eqn:E.
  - apply sync_then_Some in E. destruct E as (Hs & -> & Hle).
    unfold sync_then. rewrite (sync_at_app _ more _ Hs).
    rewrite (proj2 (Nat.leb_le (i + 2 + 2) (length (raw ++ more))))
      by (rewrite length_app; lia).
    cbn [andb]. intros [<- | H]; [now left | right; now apply IH].
  - intros H.
    destruct (sync_then 2 (raw ++ more) i) as [e|] eqn:E'.
    + exfalso.
      pose proof (finditer_loop_ge _ _ _ _ _ H) as Hge.
      apply finditer_loop_matches, sync_then_Some in H.
      destruct H as (_ & Hend & Hc).
      apply sync_then_Some in E'. destruct E' as (Hs' & _ & _).
      unfold sync_then in E.
      destruct (sync_at raw i) eqn:Hs.
      * cbn [andb] in E.
        destruct (i + 2 + 2 <=? length raw) eqn:Hl; [discriminate|].
        apply Nat.leb_gt in Hl. lia.
      * (* the marker itself straddles the end of [raw] *)
        assert (length raw < i + 2).
        { destruct (Nat.lt_ge_cases (length raw) (i + 2)) as [|Hge2]; [assumption|].
          exfalso. unfold sync_at in Hs, Hs'.
          rewrite !nth_error_app1 in Hs' by lia. rewrite Hs' in Hs.
          discriminate. }
        lia.
    + now apply IH.
Qed.

(** X2: a PD0 chunk found in a buffer is still found after more data has
    been appended to the buffer. *)
Theorem pd0_chunks_stable (raw more : buffer) (c : chunk) :
  In c (pd0_chunks raw) -> In c (pd0_chunks (raw ++ more)).
Proof.
  intros H. apply in_pd0_chunks in H. destruct H as (m & Hm & Hfit & ->).
  apply in_pd0_chunks. exists m.
  pose proof (finditer_loop_matches _ _ _ _ _ Hm) as Hmatch.
  apply sync_then_Some in Hmatch. destruct Hmatch as (_ & Hend & Hle).
  rewrite unpack_H_app by lia. rewrite length_app.
  split; [|split; [lia | reflexivity]].
  unfold finditer in *. apply finditer_loop_app with (more := more) in Hm.
  eapply finditer_loop_fuel; [|exact Hm]. rewrite length_app. lia.
Qed.

Lemma pd0_chunks_stable_witness :
  In (4, 7) (pd0_chunks (record_with_marker_in_payload ++ [x00; x7f])).
Proof.
  apply (@pd0_chunks_stable record_with_marker_in_payload [x00; x7f] (4, 7)).
  vm_compute. tauto.
Defined.

(** ** A stream of records *)

Lemma nth_error_after (pre l : buffer) (k : nat) :
  nth_error (pre ++ l) (length pre + k) = nth_error l k.
Proof.
  rewrite nth_error_app2 by lia. f_equal. lia.
Qed.

(** Positions at which the pattern does not match are passed over. *)
Lemma finditer_loop_skip (re : regex) (raw : buffer) (n fuel i : nat) :
  (forall j, i <= j < i + n -> re raw j = None) ->
  i + n <= length raw ->
  finditer_loop re raw (n + fuel) i = finditer_loop re raw fuel (i + n).
Proof.
  revert i. induction n as [|n IH]; intros i Hnone Hlen.
  - now rewrite Nat.add_0_r.
  - cbn [Nat.add finditer_loop].
    rewrite (proj2 (Nat.ltb_ge _ _)) by lia.
    rewrite Hnone by lia.
    rewrite IH; [f_equal; lia | intros j Hj; apply Hnone; lia | lia].
Qed.

Lemma sync_at_not_7f (raw : buffer) (i : nat) (b : byte) :
  nth_error raw i = Some b -> Byte.eqb b x7f = false -> sync_at raw i = false.
Proof.
  intros E Hb. unfold sync_at. rewrite E.
  destruct (nth_error raw (S i)); [|reflexivity]. now rewrite Hb.
Qed.

Lemma no_sync_in (bytes : buffer) (pre post : buffer) (j : nat) :
  forallb (fun c => negb (Byte.eqb c x7f)) bytes = true ->
  length pre <= j < length pre + length bytes ->
  sync_then 2 (pre ++ bytes ++ post) j = None.
Proof.
  intros Hclean Hj. unfold sync_then.
  destruct (nth_error bytes (j - length pre)) as [b|] eqn:E.
  - rewrite (@sync_at_not_7f _ j b); [reflexivity| |].
    + replace j with (length pre + (j - length pre)) by lia.
      rewrite nth_error_after, nth_error_app1 by lia. exact E.
    + rewrite forallb_forall in Hclean.
      specialize (Hclean b (nth_error_In _ _ E)).
      now apply negb_true_iff in Hclean.
  - apply nth_error_None in E. lia.
Qed.

Lemma clean_record_inv (r : buffer) :
  clean_record r = true ->
  exists lo hi payload,
    r = x7f :: x7f :: lo :: hi :: payload /\
    Byte.to_nat lo + 256 * Byte.to_nat hi = 2 + length payload /\
    forallb (fun c => negb (Byte.eqb c x7f)) payload = true.
Proof.
  destruct r as [|a [|b [|lo [|hi payload]]]]; try discriminate.
  cbn [clean_record]. rewrite !andb_true_iff.
  intros [[[Ha Hb] Hl] Hp].
  apply Byte.byte_dec_bl in Ha, Hb. apply Nat.eqb_eq in Hl. subst.
  eauto 6.
Qed.

(** With enough fuel for the rest of the buffer, the amount of fuel does
    not matter. *)
Lemma finditer_loop_enough (re : regex) (raw : buffer) (fuel fuel' i : nat) :
  length raw < i + fuel -> length raw < i + fuel' ->
  finditer_loop re raw fuel i = finditer_loop re raw fuel' i.
Proof.
  revert fuel' i. induction fuel as [|fuel IH]; intros fuel' i H H'.
  - destruct fuel' as [|fuel']; [reflexivity|]. cbn [finditer_loop].
    now rewrite (proj2 (Nat.ltb_lt _ _)) by lia.
  - destruct fuel' as [|fuel'].
    + cbn [finditer_loop]. now rewrite (proj2 (Nat.ltb_lt _ _)) by lia.
    + cbn [finditer_loop]. destruct (length raw <? i); [reflexivity|].
      destruct (re raw i) as [e|].
      * f_equal. destruct (e <=? i) eqn:E.
        -- apply IH; lia.
        -- apply Nat.leb_gt in E. apply IH; lia.
      * apply IH; lia.
Qed.

Lemma no_element_nil {A} (l : list A) : (forall x, ~ In x l) -> l = [].
Proof.
  destruct l as [|a l]; [reflexivity|]. intros H.
  destruct (H a). now left.
Qed.

(** The header scan of a stream of clean records finds the heads of the
    records, nothing else, and goes on behind the last record. *)
Lemma heads_of_stream (recs : list buffer) :
  forall (pre tail : buffer) (fuel : nat),
    forallb clean_record recs = true ->
    length (concat recs ++ tail) < fuel ->
    finditer_loop (sync_then 2) (pre ++ concat recs ++ tail) fuel (length pre)
    = record_heads (length pre) recs
      ++ finditer_loop (sync_then 2) (pre ++ concat recs ++ tail) fuel
                       (length pre + length (concat recs)).
Proof.
  induction recs as [|r recs IH]; intros pre tail fuel Hclean Hfuel.
  - cbn [concat record_heads length app]. now rewrite Nat.add_0_r.
  - cbn [forallb] in Hclean. apply andb_true_iff in Hclean.
    destruct Hclean as [Hr Hrecs].
    destruct (clean_record_inv _ Hr) as (lo & hi & payload & -> & Hlen & Hp).
    cbn [concat record_heads] in *.
    set (r := x7f :: x7f :: lo :: hi :: payload) in *.
    assert (Hr_len : length r = 4 + length payload) by reflexivity.
    rewrite !length_app in Hfuel.
    set (raw := pre ++ (r ++ concat recs) ++ tail).
    assert (Hraw_len : length raw
                       = length pre + length r + length (concat recs) + length tail)
      by (unfold raw; rewrite !length_app; lia).
    remember (finditer_loop (sync_then 2) raw fuel
                (length pre + length (r ++ concat recs))) as behind eqn:Hbehind.
    destruct fuel as [|fuel]; [lia|]. cbn [finditer_loop].
    rewrite (proj2 (Nat.ltb_ge _ _)) by lia.
    assert (Hhead : sync_then 2 raw (length pre) = Some (length pre + 2 + 2)).
    { unfold sync_then.
      rewrite (proj2 (Nat.leb_le (length pre + 2 + 2) _)) by lia.
      unfold sync_at, raw.
      replace (S (length pre)) with (length pre + 1) by lia.
      rewrite <- (Nat.add_0_r (length pre)) at 1.
      rewrite !nth_error_after. reflexivity. }
    rewrite Hhead.
    rewrite (proj2 (Nat.leb_gt _ _)) by lia.
    replace (length pre + 2 + 2) with (length pre + 4) by lia.
    cbn [app]. f_equal.
    replace fuel with (length payload + (fuel - length payload)) at 1 by lia.
    rewrite finditer_loop_skip.
    + assert (Hraw : raw = (pre ++ r) ++ concat recs ++ tail)
        by (unfold raw; now rewrite <- !app_assoc).
      replace (length pre + 4 + length payload) with (length (pre ++ r))
        by (rewrite length_app; lia).
      rewrite Hraw, IH by (auto; rewrite length_app; lia).
      rewrite <- Hraw. f_equal; [now rewrite length_app|].
      rewrite Hbehind, !length_app.
      replace (length pre + length r + length (concat recs))
        with (length pre + (length r + length (concat recs))) by lia.
      apply finditer_loop_enough; lia.
    + intros j Hj.
      replace raw
        with ((pre ++ [x7f; x7f; lo; hi]) ++ payload ++ concat recs ++ tail)
        by (unfold raw, r; now rewrite <- !app_assoc).
      apply no_sync_in; [exact Hp|]. rewrite length_app. cbn [length]. lia.
    + lia.
Qed.

Lemma bounds_of_heads (raw : buffer) (recs : list buffer) :
  forall pre tail : buffer,
    raw = pre ++ concat recs ++ tail ->
    forallb clean_record recs = true ->
    flat_map (fun m => if fst m + 2 + unpack_H raw (fst m) <=? length raw
                       then [(fst m, fst m + 2 + unpack_H raw (fst m))]
                       else [])
             (record_heads (length pre) recs)
    = record_bounds (length pre) recs.
Proof.
  induction recs as [|r recs IH]; intros pre tail Hraw Hclean; [reflexivity|].
  cbn [forallb] in Hclean. apply andb_true_iff in Hclean.
  destruct Hclean as [Hr Hrecs].
  destruct (clean_record_inv _ Hr) as (lo & hi & payload & -> & Hlen & Hp).
  cbn [concat record_heads record_bounds flat_map fst] in *.
  set (r := x7f :: x7f :: lo :: hi :: payload) in *.
  assert (Hr_len : length r = 4 + length payload) by reflexivity.
  assert (Hun : unpack_H raw (length pre) = 2 + length payload).
  { unfold unpack_H. rewrite Hraw, !nth_error_after. cbn [r app nth_error].
    exact Hlen. }
  rewrite Hun.
  rewrite (proj2 (Nat.leb_le _ _)) by (rewrite Hraw, !length_app; lia).
  cbn [app]. f_equal; [f_equal; lia|].
  replace (length pre + length r) with (length (pre ++ r))
    by now rewrite length_app.
  apply (IH (pre ++ r) tail); [now rewrite Hraw, <- !app_assoc | exact Hrecs].
Qed.

Lemma forallb_firstn {A} (f : A -> bool) (n : nat) (l : list A) :
  forallb f l = true -> forallb f (firstn n l) = true.
Proof.
  revert l. induction n as [|n IH]; intros [|a l]; cbn; auto.
  intros H. apply andb_true_iff in H. destruct H as [-> H]. now apply IH.
Qed.

(** A record that is not complete yet gives no chunk. *)
Lemma incomplete_record_gives_nothing (pre r : buffer) (n fuel : nat) :
  clean_record r = true ->
  n < length r ->
  flat_map (fun m => if fst m + 2 + unpack_H (pre ++ firstn n r) (fst m)
                        <=? length (pre ++ firstn n r)
                     then [(fst m, fst m + 2 + unpack_H (pre ++ firstn n r) (fst m))]
                     else [])
           (finditer_loop (sync_then 2) (pre ++ firstn n r) fuel (length pre))
  = [].
Proof.
  intros Hr Hn.
  destruct (clean_record_inv _ Hr) as (lo & hi & payload & -> & Hlen & Hp).
  set (r := x7f :: x7f :: lo :: hi :: payload) in *.
  assert (Hr_len : length r = 4 + length payload) by reflexivity.
  set (raw := pre ++ firstn n r).
  assert (Hraw_len : length raw = length pre + n)
    by (unfold raw; rewrite length_app, length_firstn; lia).
  destruct (Nat.lt_ge_cases n 4) as [Hshort | Hlong].
  - (* not even the header is there *)
    rewrite (@no_element_nil _ (finditer_loop _ raw fuel (length pre)));
      [reflexivity|].
    intros m Hm. pose proof (finditer_loop_ge _ _ _ _ _ Hm) as Hge.
    apply finditer_loop_matches, sync_then_Some in Hm. lia.
  - destruct fuel as [|fuel]; [reflexivity|]. cbn [finditer_loop].
    rewrite (proj2 (Nat.ltb_ge _ _)) by lia.
    assert (Hpartial : firstn n r
                       = x7f :: x7f :: lo :: hi :: firstn (n - 4) payload).
    { do 4 (destruct n as [|n]; [lia|]). cbn [firstn r Nat.sub].
      now rewrite Nat.sub_0_r. }
    assert (Hhead : sync_then 2 raw (length pre) = Some (length pre + 2 + 2)).
    { unfold sync_then.
      rewrite (proj2 (Nat.leb_le (length pre + 2 + 2) _)) by lia.
      unfold sync_at, raw. rewrite Hpartial.
      replace (S (length pre)) with (length pre + 1) by lia.
      rewrite <- (Nat.add_0_r (length pre)) at 1.
      rewrite !nth_error_after. reflexivity. }
    rewrite Hhead. rewrite (proj2 (Nat.leb_gt _ _)) by lia.
    cbn [flat_map fst].
    assert (Hun : unpack_H raw (length pre) = 2 + length payload).
    { unfold unpack_H, raw. rewrite Hpartial, !nth_error_after.
      cbn [app nth_error]. exact Hlen. }
    rewrite Hun. rewrite (proj2 (Nat.leb_gt _ _)) by lia. cbn [app].
    rewrite (@no_element_nil _ (finditer_loop _ raw fuel _)); [reflexivity|].
    intros m Hm. pose proof (finditer_loop_ge _ _ _ _ _ Hm) as Hge.
    apply finditer_loop_matches, sync_then_Some in Hm.
    destruct Hm as (Hs & Hend & Hle).
    assert (Hnone : sync_then 2 raw (fst m) = None).
    { replace raw
        with ((pre ++ [x7f; x7f; lo; hi]) ++ firstn (n - 4) payload ++ [])
        by (unfold raw; rewrite Hpartial, app_nil_r, <- app_assoc; reflexivity).
      apply no_sync_in.
      - now apply forallb_firstn.
      - rewrite length_app, length_firstn. cbn [length]. lia. }
    unfold sync_then in Hnone. rewrite Hs in Hnone.
    rewrite (proj2 (Nat.leb_le _ _)) in Hnone by lia. discriminate.
Qed.

(** X3: a buffer that holds noise without sync bytes, then complete
    records whose payloads hold no sync byte, then the beginning of one
    more such record, is cut at the bounds of the complete records: the
    sieve returns one chunk per complete record, from its sync marker to
    its last byte, and no other PD0 chunk; the record that is not complete
    is left alone. *)
Theorem sieve_segments_clean_stream (sysconf compass : regex)
    (noise : buffer) (recs : list buffer) (r : buffer) (n : nat) :
  forallb (fun c => negb (Byte.eqb c x7f)) noise = true ->
  forallb clean_record recs = true ->
  clean_record r = true ->
  n < length r ->
  let raw := noise ++ concat recs ++ firstn n r in
  sieve_function sysconf compass raw
  = record_bounds (length noise) recs
    ++ finditer sysconf raw 0 ++ finditer compass raw 0.
Proof.
  intros Hnoise Hclean Hr Hn raw.
  rewrite sieve_function_unfold, pd0_chunks_spec. f_equal.
  unfold finditer.
  replace (S (length raw))
    with (length noise + S (length (concat recs ++ firstn n r)))
    by (unfold raw; rewrite !length_app; lia).
  rewrite finditer_loop_skip.
  - unfold raw.
    rewrite heads_of_stream by (auto; lia).
    rewrite flat_map_app.
    match goal with
    | |- ?heads ++ ?behind = _ =>
        assert (Hheads : heads = record_bounds (length noise) recs)
          by (apply (@bounds_of_heads _ recs noise (firstn n r)); auto);
        assert (Hbehind : behind = [])
    end.
    { replace (length noise + length (concat recs))
        with (length (noise ++ concat recs)) by now rewrite length_app.
      rewrite (app_assoc noise).
      now apply incomplete_record_gives_nothing. }
    now rewrite Hheads, Hbehind, app_nil_r.
  - intros j Hj.
    change raw with ([] ++ noise ++ concat recs ++ firstn n r).
    apply no_sync_in; [exact Hnoise | cbn [length]; lia].
  - unfold raw. rewrite length_app. lia.
Qed.

Lemma sieve_segments_clean_stream_witness :
  sieve_function sysconf_re compass_re
    ([x0d; x0a] ++ [x7f; x7f; x04; x00; x01; x02] ++ [x7f; x7f; x03; x00; x05]
     ++ [x7f; x7f; x05])
  = [(2, 8); (8, 13)].
Proof.
  refine (eq_trans
            (@sieve_segments_clean_stream sysconf_re compass_re [x0d; x0a]
               [[x7f; x7f; x04; x00; x01; x02]; [x7f; x7f; x03; x00; x05]]
               [x7f; x7f; x05; x00; x01; x02; x03] 3 _ _ _ _) _);
    vm_compute; solve [reflexivity | lia].
Defined.

End FramingProps.

(* ===================================================================== *)
(** * Properties of the response handlers                                 *)
(* ===================================================================== *)

Module ResponsesProps.

Import Protocol Responses.
Local Open Scope string_scope.

(** ** Strings *)

Lemma append_assoc (a b c : string) : (a ++ b) ++ c = a ++ b ++ c.
Proof. induction a as [|x a IH]; cbn; [reflexivity | now rewrite IH]. Qed.

Lemma startswith_append (pat t : string) : startswith pat (pat ++ t) = true.
Proof.
  induction pat as [|p pat IH]; cbn; [reflexivity|].
  now rewrite Ascii.eqb_refl, IH.
Qed.

(** ** Deleting the occurrences of a text *)

Lemma re_sub_loop_skip (pat t s : string) :
  re_sub_loop pat (String.length t) (t ++ s) = re_sub_loop pat 0 s.
Proof. induction t as [|c t IH]; cbn; [reflexivity | exact IH]. Qed.

(** An occurrence at the very start is deleted and the scan goes on
    behind it. *)
Lemma re_sub_leading (pat s : string) :
  pat <> "" -> re_sub pat (pat ++ s) = re_sub pat s.
Proof.
  destruct pat as [|p pat]; [congruence|]. intros _.
  unfold re_sub. change (String p pat ++ s) with (String p (pat ++ s)).
  cbn [re_sub_loop].
  change (String p (pat ++ s)) with (String p pat ++ s).
  rewrite startswith_append. cbn [String.length Nat.sub].
  rewrite Nat.sub_0_r. apply re_sub_loop_skip.
Qed.

(** A text without occurrence is left as it is. *)
Lemma re_sub_absent (pat s : string) :
  occursb pat s = false -> re_sub pat s = s.
Proof.
  destruct pat as [|p pat]; [reflexivity|]. unfold re_sub.
  induction s as [|c s IH]; intros Hno; [reflexivity|].
  cbn [occursb] in Hno. apply orb_false_iff in Hno. destruct Hno as [E Hs].
  cbn [re_sub_loop]. rewrite E. f_equal. exact (IH Hs).
Qed.

(** The prompt line at the end of a text without ['>'] is deleted, and
    nothing else is. *)
Lemma re_sub_trailing_prompt (body : string) :
  has_char ">" body = false ->
  re_sub (NEWLINE ++ ">") (body ++ NEWLINE ++ ">") = body.
Proof.
  unfold re_sub. cbn [NEWLINE append].
  induction body as [|c body IH]; intros Hno; [reflexivity|].
  cbn [has_char] in Hno. apply orb_false_iff in Hno. destruct Hno as [Hc Hb].
  change (String c body ++ ?t) with (String c (body ++ t)).
  cbn [re_sub_loop].
  assert (E : startswith (String "013" (String "010" (String ">" "")))
                (String c (body ++ String "013" (String "010" (String ">" ""))))
              = false).
  { destruct body as [|c1 [|c2 body]]; cbn [append startswith].
    - destruct (Ascii.eqb "013" c); reflexivity.
    - destruct (Ascii.eqb "013" c), (Ascii.eqb "010" c1); reflexivity.
    - cbn [has_char] in Hb. apply orb_false_iff in Hb. destruct Hb as [_ Hb].
      apply orb_false_iff in Hb. destruct Hb as [Hc2 _]. rewrite Hc2.
      destruct (Ascii.eqb "013" c), (Ascii.eqb "010" c1); reflexivity. }
  cbn [append] in E. rewrite E. f_equal. apply IH. exact Hb.
Qed.

(** X4: the handler for SEND_LAST_SAMPLE gives back what follows the echo
    of the command line built by [_build_simple_command], unchanged,
    provided the echo does not occur again in it. *)
Theorem send_last_sample_echo_stripped (body prompt : string) :
  occursb (_build_simple_command InstrumentCmds.SEND_LAST_SAMPLE) body = false ->
  _parse_send_last_sample_response
    (_build_simple_command InstrumentCmds.SEND_LAST_SAMPLE ++ body) prompt
  = VPair (VBool true) (VStr body).
Proof.
  intros Hno. unfold _parse_send_last_sample_response.
  change ("CE" ++ NEWLINE)
    with (_build_simple_command InstrumentCmds.SEND_LAST_SAMPLE).
  rewrite re_sub_leading by discriminate.
  now rewrite re_sub_absent.
Qed.

(** X5: for CY0, CY1, FC, FD and PS3 the handler gives back the text
    between the echo of the command line and the prompt line, provided
    the text holds no ['>'] and the echo does not occur again before the
    end of the response. *)
Theorem echo_and_prompt_are_stripped (cmd : InstrumentCmds.t)
    (handler : string -> string -> pyval) (body prompt : string) :
  echo_and_prompt_stripped cmd = true ->
  stripping_handler cmd = Some handler ->
  has_char ">" body = false ->
  occursb (_build_simple_command cmd) (body ++ NEWLINE ++ ">") = false ->
  handler (_build_simple_command cmd ++ body ++ NEWLINE ++ ">") prompt
  = VPair (VBool true) (VStr body).
Proof.
  intros Hcmd Hh Hgt Hno.
  destruct cmd; try discriminate Hcmd; injection Hh as <-;
    [ unfold _parse_clear_error_status_response
    | unfold _parse_error_status_response
    | unfold _parse_clear_fault_log_response
    | unfold _parse_fault_log_response
    | unfold _parse_instrument_transform_matrix_response ];
    cbv zeta;
    match goal with
    | |- context [re_sub ?echo (_build_simple_command ?c ++ _)] =>
        change echo with (_build_simple_command c)
    end;
    rewrite re_sub_leading by discriminate;
    rewrite (re_sub_absent _ _ Hno);
    now rewrite re_sub_trailing_prompt.
Qed.

Lemma send_last_sample_echo_stripped_witness :
  _parse_send_last_sample_response ("CE" ++ NEWLINE ++ "7F7F0400") ">"
  = VPair (VBool true) (VStr "7F7F0400").
Proof.
  apply (@send_last_sample_echo_stripped "7F7F0400" ">").
  vm_compute. reflexivity.
Defined.

Lemma echo_and_prompt_are_stripped_witness :
  _parse_error_status_response ("CY1" ++ NEWLINE ++ "00000000" ++ NEWLINE ++ ">")
                               Prompt.COMMAND
  = VPair (VBool true) (VStr "00000000").
Proof.
  refine (@echo_and_prompt_are_stripped InstrumentCmds.DISPLAY_ERROR_STATUS_WORD
            _parse_error_status_response "00000000" Prompt.COMMAND
            eq_refl eq_refl _ _);
    vm_compute; reflexivity.
Defined.

(** ** What the handlers never do *)

Lemma subseq_refl (s : string) : subseq s s.
Proof. induction s; constructor; assumption. Qed.

Lemma subseq_trans (a b c : string) : subseq a b -> subseq b c -> subseq a c.
Proof.
  intros Hab Hbc. revert a Hab.
  induction Hbc as [|x b c Hbc IH|x b c Hbc IH]; intros a Hab.
  - exact Hab.
  - inversion Hab; subst.
    + constructor. now apply IH.
    + apply subseq_drop. now apply IH.
  - apply subseq_drop. now apply IH.
Qed.

Lemma re_sub_loop_subseq (pat s : string) (skip : nat) :
  subseq (re_sub_loop pat skip s) s.
Proof.
  revert skip. induction s as [|c s IH]; intros skip; cbn [re_sub_loop].
  - constructor.
  - destruct skip; [|apply subseq_drop, IH].
    destruct (startswith pat (String c s)).
    + apply subseq_drop, IH.
    + apply subseq_keep, IH.
Qed.

Lemma re_sub_subseq (pat s : string) : subseq (re_sub pat s) s.
Proof.
  destruct pat; [apply subseq_refl | apply re_sub_loop_subseq].
Qed.

Lemma subseq_has_char (c : ascii) (a b : string) :
  subseq a b -> has_char c b = false -> has_char c a = false.
Proof.
  induction 1 as [|x a b H IH|x a b H IH]; cbn [has_char]; intros Hb.
  - reflexivity.
  - apply orb_false_iff in Hb. destruct Hb as [-> Hb]. now rewrite IH.
  - apply orb_false_iff in Hb. destruct Hb as [_ Hb]. now apply IH.
Qed.

(** Deleting a one-character text leaves no such character. *)
Lemma re_sub_char (c : ascii) (s : string) :
  has_char c (re_sub (String c "") s) = false.
Proof.
  unfold re_sub. induction s as [|d s IH]; [reflexivity|].
  cbn [re_sub_loop startswith String.length Nat.sub].
  rewrite andb_true_r.
  destruct (Ascii.eqb c d) eqn:E; [exact IH|].
  cbn [has_char]. now rewrite E, IH.
Qed.

(** X6: each of the eight handlers that rewrite the response returns the
    pair of [True] and a text, and the text is the response with some
    characters deleted: nothing is added and nothing is reordered. *)
Theorem stripping_handlers_only_delete (cmd : InstrumentCmds.t)
    (handler : string -> string -> pyval) (response prompt : string) :
  stripping_handler cmd = Some handler ->
  exists text,
    handler response prompt = VPair (VBool true) (VStr text) /\
    subseq text response.
Proof.
  intros Hh.
  destruct cmd; try discriminate Hh; injection Hh as <-;
    eexists; (split; [reflexivity|]);
    repeat (eapply subseq_trans; [apply re_sub_subseq|]);
    apply subseq_refl.
Qed.

Lemma stripping_handlers_only_delete_witness :
  exists text,
    _parse_test_response ("PT200" ++ NEWLINE ++ NEWLINE ++ "PASS" ++ NEWLINE ++ ">")
                         Prompt.COMMAND
    = VPair (VBool true) (VStr text) /\
    subseq text ("PT200" ++ NEWLINE ++ NEWLINE ++ "PASS" ++ NEWLINE ++ ">").
Proof.
  exact (@stripping_handlers_only_delete InstrumentCmds.RUN_TEST_200
           _parse_test_response _ Prompt.COMMAND eq_refl).
Defined.

(** X7: the text returned for SAVE_SETUP_TO_RAM holds no square bracket,
    whatever the response. *)
Theorem save_setup_response_has_no_bracket (response prompt : string) :
  exists text,
    _parse_save_setup_to_ram_response response prompt
    = VPair (VBool true) (VStr text) /\
    has_char "[" text = false /\ has_char "]" text = false.
Proof.
  eexists. split; [reflexivity|]. split.
  - eapply subseq_has_char; [apply re_sub_subseq|].
    eapply subseq_has_char; [apply re_sub_subseq|].
    apply re_sub_char.
  - eapply subseq_has_char; [apply re_sub_subseq|].
    apply re_sub_char.
Qed.

End ResponsesProps.

(* ===================================================================== *)
(** * More on the protocol handlers                                       *)
(* ===================================================================== *)

Module HandlerProps.

Import Protocol Examples Startup ProtocolProps.
Local Open Scope string_scope.
Local Open Scope py_scope.

Section Generic.

Variable W : Type.
Variable dev : instrument W.

Create HintDb keeps_more.
#[local] Hint Resolve keeps_ret keeps_raise keeps_perform keeps_sleep
  keeps_get_timestamp_delayed keeps_get_config keeps_send_break
  keeps_is_logging keeps_start_logging keeps_stop_logging : keeps_more.
#[local] Hint Extern 2 (keeps_state (bind _ _)) =>
  apply keeps_bind; [|intros ?] : keeps_more.
#[local] Hint Extern 2 (keeps_state (try_except_class _ _ _)) =>
  apply keeps_try_except_class : keeps_more.
#[local] Hint Extern 2 (keeps_state (try_except _ _)) =>
  apply keeps_try_except; [|intros ?] : keeps_more.
#[local] Hint Extern 2 (keeps_state (try_finally _ _)) =>
  apply keeps_try_finally : keeps_more.
#[local] Hint Extern 3 (keeps_state (if ?b then _ else _)) => destruct b : keeps_more.
#[local] Hint Extern 3 (keeps_state (match ?x with _ => _ end)) => destruct x : keeps_more.

Lemma pyval_eqb_VStr (s : string) (v : pyval) :
  pyval_eqb (VStr s) v = true -> v = VStr s.
Proof.
  destruct v; cbn; try discriminate. intros H.
  apply String.eqb_eq in H. now subst.
Qed.

Lemma pyval_eqb_VStr_refl (s : string) : pyval_eqb (VStr s) (VStr s) = true.
Proof. cbn. apply String.eqb_refl. Qed.

(** ** The break *)

(** X8: when the socket cannot be created, [_send_break] fails with
    UnboundLocalError, not with the socket error, and makes no further
    call: nothing is connected and no break is sent. *)
Theorem send_break_without_socket (st : state W) (e : exn) (w1 : W) :
  respond dev socket_socket (world st) = (Raises e, w1) ->
  class_of e = socket_error ->
  _send_break dev st
  = (Raise (Exn UnboundLocalError
                "local variable 'sock' referenced before assignment"),
     State w1 (trace st ++ [Call socket_socket]) (current_state st)).
Proof.
  intros Hsock Hcls.
  unfold _send_break, bind at 1, try_except_class, bind, perform.
  rewrite Hsock, Hcls. reflexivity.
Qed.

(** X9: a socket error of the connect is swallowed: the break is sent on
    the socket all the same. *)
Theorem send_break_ignores_connect_error (st : state W) (v : pyval) (e : exn)
    (w1 w2 : W) :
  respond dev socket_socket (world st) = (Returns v, w1) ->
  respond dev (socket_connect "10.180.80.178" 2102) w1 = (Raises e, w2) ->
  class_of e = socket_error ->
  exists rest,
    trace (snd (_send_break dev st))
    = (trace st ++ [Call socket_socket;
                    Call (socket_connect "10.180.80.178" 2102);
                    Call (socket_send ("break 300" ++ NEWLINE))] ++ rest)%list.
Proof.
  intros Hsock Hconn Hcls.
  unfold _send_break, bind at 1, try_except_class, bind, perform.
  rewrite Hsock. cbn [world trace current_state ret].
  rewrite Hconn, Hcls. cbn [exn_class_eqb world trace current_state].
  unfold ret. cbn [world trace current_state].
  destruct (respond dev (socket_send _) w2) as [[v1|e1] w3];
    cbn [world trace current_state snd].
  - destruct (respond dev socket_close w3) as [[v2|e2] w4];
      cbn [snd trace]; exists [Call socket_close];
      now rewrite <- !app_assoc.
  - exists []. now rewrite <- !app_assoc.
Qed.

(** ** Starting and stopping logging *)

(** X10: [_stop_logging] returns only after a probe that was answered
    with the command prompt: when it returns, its value is [True], the
    last call made is the wake-up of the probe, and that wake-up returned
    [Prompt.COMMAND]. *)
Theorem stop_logging_returns_at_prompt (t : arg) (st st' : state W) (v : pyval) :
  _stop_logging dev t st = (Ok v, st') ->
  v = VBool true /\
  exists st2,
    trace st' = (trace st2 ++ [Call (_wakeup TIMEOUT 300)])%list /\
    respond dev (_wakeup TIMEOUT 300) (world st2)
    = (Returns (VStr Prompt.COMMAND), world st').
Proof.
  unfold _stop_logging, bind. cbn [sleep].
  destruct (_send_break dev _) as [[[]|e] s1]; [|discriminate].
  destruct (perform dev _ _) as [[v1|e] s2]; [|discriminate].
  rewrite is_logging_spec.
  destruct (respond dev (_wakeup TIMEOUT 300) (world s2)) as [[p|e] w3] eqn:E;
    [|discriminate].
  destruct (pyval_eqb (VStr Prompt.COMMAND) p) eqn:Hp; cbn [negb truthy];
    [|discriminate].
  intros [= <- <-]. split; [reflexivity|].
  exists s2. cbn [trace world]. apply pyval_eqb_VStr in Hp. subst p. auto.
Qed.

(** X11: [_start_logging] sends START_DEPLOYMENT exactly when the wake-up
    of its probe returned the command prompt; for any other answer the
    wake-up is the only call. *)
Theorem start_logging_starts_iff_prompt (t : nat) (st : state W) (v : pyval)
    (w1 : W) :
  respond dev (_wakeup TIMEOUT 300) (world st) = (Returns v, w1) ->
  exists new,
    trace (snd (_start_logging dev t st)) = (trace st ++ new)%list /\
    (In (start_deployment_call t) new <-> v = VStr Prompt.COMMAND) /\
    (v <> VStr Prompt.COMMAND -> new = [Call (_wakeup TIMEOUT 300)]).
Proof.
  intros Hw. unfold _start_logging, bind. rewrite is_logging_spec, Hw.
  destruct (pyval_eqb (VStr Prompt.COMMAND) v) eqn:Hp; cbn [negb truthy].
  - apply pyval_eqb_VStr in Hp. subst v.
    unfold perform. cbn [world trace current_state sleep].
    destruct (respond dev _ w1) as [[v1|e1] w2]; cbn [snd trace];
      rewrite <- ?app_assoc; cbn [app];
      eexists; (split; [reflexivity|]);
      (split; [split; [reflexivity | intros _; right; now left]
              | congruence]).
  - cbn [snd trace]. eexists. split; [reflexivity|]. split.
    + split.
      * intros [H | []]. discriminate H.
      * intros ->. now rewrite pyval_eqb_VStr_refl in Hp.
    + reflexivity.
Qed.

(** ** The three handlers that interrupt logging *)

(** X12: for get calibration, get configuration and the scheduled clock
    sync in AUTOSAMPLE alike, [_start_logging] runs from the state the
    [try] block left; when it returns, an exception of the block is raised
    again, and otherwise the handler returns no next state and the result
    of the block. *)
Theorem interrupting_handler_outcome (ev : ProtocolEvent.t)
    (body : list arg -> kwargs -> M W pyval)
    (handler : list arg -> kwargs -> M W handler_result)
    (args : list arg) (kw : kwargs) (st st1 st2 : state W)
    (r1 : result pyval) (v : pyval) :
  autosample_try dev ev = Some body ->
  state_handlers dev ProtocolState.AUTOSAMPLE ev = Some handler ->
  body args kw st = (r1, st1) ->
  _start_logging dev TIMEOUT st1 = (Ok v, st2) ->
  handler args kw st
  = (match r1 with
     | Raise e => Raise e
     | Ok result => Ok (@None ProtocolState.t, VPair VNone result)
     end, st2).
Proof.
  intros Hbody Hhandler Hrun Hrestart.
  destruct ev; try discriminate Hbody;
    injection Hbody as <-; injection Hhandler as <-;
    [ unfold _handler_autosample_get_calibration
    | unfold _handler_autosample_get_configuration
    | unfold _handler_autosample_clock_sync ];
    exact (@interrupt_restore_spec W dev _ _ _ _ _ _ Hrun Hrestart).
Qed.

Lemma keeps_stop_logging_with (args : list arg) (kw : kwargs) :
  keeps_state (_stop_logging_with dev args kw).
Proof.
  unfold _stop_logging_with.
  destruct args as [|[d|[| | n | | |]] [|? ?]];
    destruct (expected_prompt kw); try destruct (timeout kw);
    auto with keeps_more.
Qed.

Lemma keeps_autosample_try (ev : ProtocolEvent.t)
    (body : list arg -> kwargs -> M W pyval) (args : list arg) (kw : kwargs) :
  autosample_try dev ev = Some body -> keeps_state (body args kw).
Proof.
  pose proof keeps_stop_logging_with.
  destruct ev; try discriminate; intros [= <-];
    [ unfold autosample_get_calibration_try
    | unfold autosample_get_configuration_try
    | unfold autosample_clock_sync_try ];
    auto 20 with keeps_more.
Qed.

(** X13: get calibration, get configuration and the scheduled clock sync
    leave the protocol in AUTOSAMPLE in every case, also when stopping or
    restarting logging failed. *)
Theorem interrupting_events_keep_autosample (ev : ProtocolEvent.t)
    (body : list arg -> kwargs -> M W pyval)
    (args : list arg) (kw : kwargs) (st : state W) :
  autosample_try dev ev = Some body ->
  current_state st = ProtocolState.AUTOSAMPLE ->
  current_state (snd (on_event dev ev args kw st)) = ProtocolState.AUTOSAMPLE.
Proof.
  intros Hbody Hst.
  pose proof (keeps_autosample_try _ args kw Hbody) as Hkeep.
  destruct (body args kw st) as [r1 st1] eqn:Hrun.
  destruct (_start_logging dev TIMEOUT st1) as [r2 st2] eqn:Hrestart.
  apply Hkeep in Hrun as Hs1. apply keeps_start_logging in Hrestart as Hs2.
  assert (Hh : exists handler,
             state_handlers dev ProtocolState.AUTOSAMPLE ev = Some handler /\
             exists r, handler args kw st = (r, st2) /\
                       forall a, r = Ok a -> fst a = None).
  { destruct ev; try discriminate Hbody; injection Hbody as <-;
      eexists; (split; [reflexivity|]);
      [ unfold _handler_autosample_get_calibration
      | unfold _handler_autosample_get_configuration
      | unfold _handler_autosample_clock_sync ];
      rewrite (@interrupt_restore_spec W dev _ _ _ _ _ _ Hrun Hrestart);
      eexists; (split; [reflexivity|]);
      intros a; destruct r2, r1; intros [= <-]; reflexivity. }
  destruct Hh as (handler & Hhandler & r & Hr & Hnone).
  unfold on_event, bind at 1, get_current_state. rewrite Hst, Hhandler.
  unfold bind. rewrite Hr.
  destruct r as [a|e]; cbn [snd]; [|congruence].
  rewrite (Hnone a eq_refl). cbn [snd ret]. congruence.
Qed.

(** ** Setting parameters *)

Lemma set_params_loop_app (done rest : list (string * pyval)) (kw : kwargs)
    (result : option pyval) (st : state W) :
  set_params_loop dev (done ++ rest) kw result st =
  match set_params_loop dev done kw result st with
  | (Ok r, st1) => set_params_loop dev rest kw r st1
  | (Raise e, st1) => (Raise e, st1)
  end.
Proof.
  revert result st.
  induction done as [|[k v] done IH]; intros result st; [reflexivity|].
  cbn [app set_params_loop]. unfold bind.
  destruct (perform dev _ st) as [[r|e] s1]; [apply IH | reflexivity].
Qed.

(** A loop that completes has made one SET per entry, in order. *)
Lemma set_params_loop_trace (d : list (string * pyval)) (kw : kwargs)
    (result r : option pyval) (st st1 : state W) :
  set_params_loop dev d kw result st = (Ok r, st1) ->
  trace st1 = (trace st ++ map (set_call kw) d)%list /\
  current_state st1 = current_state st /\
  (d <> [] -> r <> None) /\ (d = [] -> r = result).
Proof.
  revert result st.
  induction d as [|[k v] d IH]; intros result st; cbn [set_params_loop].
  - intros [= <- <-]. rewrite app_nil_r. repeat split; congruence.
  - unfold bind, perform.
    destruct (respond dev _ (world st)) as [[x|e] w']; [|discriminate].
    intros H. apply IH in H. cbn [trace current_state] in H.
    destruct H as (-> & -> & Hne & Hnil). rewrite <- app_assoc.
    repeat split; try discriminate.
    intros _. destruct d; [rewrite Hnil by reflexivity; discriminate|].
    apply Hne. discriminate.
Qed.

Lemma verify_passes (d : list (string * pyval)) (rest : list arg)
    (kw : kwargs) (st : state W) :
  existsb (fun kv => not_settable (fst kv)) d = false ->
  _verify_not_readonly (ADict d :: rest) kw st = (Ok tt, st).
Proof. intros H. unfold _verify_not_readonly. now rewrite H. Qed.

(** X14: when no entry of the parameter map is read-only and the SET of
    an entry raises, [_set_params] raises that exception at once: the
    entries after it are not written and the parameters are not
    refreshed. *)
Theorem set_params_aborts_on_failure (d done rest : list (string * pyval))
    (k : string) (v : pyval) (startup : arg) (kw : kwargs)
    (st st1 : state W) (r0 : option pyval) (e : exn) (w2 : W) :
  existsb (fun kv => not_settable (fst kv)) d = false ->
  d = (done ++ (k, v) :: rest)%list ->
  set_params_loop dev done kw None st = (Ok r0, st1) ->
  respond dev (_do_cmd_resp InstrumentCmds.SET [AVal (VStr k); AVal v] kw)
          (world st1) = (Raises e, w2) ->
  _set_params dev [ADict d; startup] kw st
  = (Raise e,
     State w2 (trace st ++ map (set_call kw) (done ++ [(k, v)]))
           (current_state st)).
Proof.
  intros Hok -> Hdone Hfail.
  unfold _set_params, bind at 1. rewrite verify_passes by exact Hok.
  unfold bind at 1. rewrite set_params_loop_app, Hdone.
  cbn [set_params_loop]. unfold bind, perform. rewrite Hfail.
  apply set_params_loop_trace in Hdone. destruct Hdone as (-> & -> & _).
  rewrite map_app, <- app_assoc. reflexivity.
Qed.

(** X15: with an empty parameter map [_set_params] writes nothing,
    refreshes the parameters and, when the refresh went through, fails
    with UnboundLocalError. *)
Theorem set_params_empty_map (startup : arg) (kw : kwargs)
    (st st1 : state W) (s : string) :
  _update_params dev no_kwargs st = (Ok s, st1) ->
  _set_params dev [ADict []; startup] kw st
  = (Raise (Exn UnboundLocalError
                "local variable 'result' referenced before assignment"),
     st1).
Proof.
  intros Hrefresh. unfold _set_params, bind at 1.
  rewrite verify_passes by reflexivity.
  unfold bind. cbn [set_params_loop ret]. now rewrite Hrefresh.
Qed.

(** X16: when no entry of a non-empty parameter map is read-only and all
    SETs return, the SETs are made one per entry in the order of the map,
    the parameters are refreshed after the last of them, and the value
    returned is the one the loop left in [result]. *)
Theorem set_params_then_refresh (d : list (string * pyval)) (startup : arg)
    (kw : kwargs) (st st1 st2 : state W) (r1 : option pyval) (s : string) :
  existsb (fun kv => not_settable (fst kv)) d = false ->
  d <> [] ->
  set_params_loop dev d kw None st = (Ok r1, st1) ->
  _update_params dev no_kwargs st1 = (Ok s, st2) ->
  exists r,
    r1 = Some r /\
    _set_params dev [ADict d; startup] kw st = (Ok r, st2) /\
    trace st1 = (trace st ++ map (set_call kw) d)%list.
Proof.
  intros Hok Hne Hloop Hrefresh.
  destruct (set_params_loop_trace _ _ _ _ Hloop) as (Htrace & _ & Hsome & _).
  destruct r1 as [r|]; [|now destruct (Hsome Hne)].
  exists r. split; [reflexivity|]. split; [|exact Htrace].
  unfold _set_params, bind at 1. rewrite verify_passes by exact Hok.
  unfold bind. now rewrite Hloop, Hrefresh.
Qed.

(** X17: a set request without argument, or whose first argument is not a
    dictionary, fails with InstrumentParameterException before anything
    is sent. *)
Theorem command_set_rejects_bad_arguments (args : list arg) (kw : kwargs)
    (st : state W) :
  match args with
  | [] | AVal _ :: _ => True
  | ADict _ :: _ => False
  end ->
  exists msg,
    _handler_command_set dev args kw st
    = (Raise (Exn InstrumentParameterException msg), st).
Proof.
  destruct args as [|[d|v] rest]; intros H; [|destruct H|];
    eexists; reflexivity.
Qed.

(** ** Refreshing the parameters *)

(** X18: a refresh in which the wake-up and every GET return makes one
    GET per declared parameter, in the sorted order of the attribute
    names, and then a second GET for the last of them, XMIT_POWER; it
    raises the CONFIG_CHANGE event exactly when the text of the
    configuration differs from the one read after the wake-up, and
    returns the responses collected in the loop. *)
Theorem update_params_complete (kw : kwargs) (st st0 st1 : state W)
    (p v : pyval) (r : string * option string) (w2 : W) :
  perform dev (_wakeup TIMEOUT 300) st = (Ok p, st0) ->
  update_params_loop dev update_params_keys
                     (Kwargs (timeout kw) (Some Prompt.COMMAND))
                     "" None st0 = (Ok r, st1) ->
  respond dev (_do_cmd_resp InstrumentCmds.GET [AVal (VStr Param.XMIT_POWER)]
                            (Kwargs (timeout kw) (Some Prompt.COMMAND)))
          (world st1) = (Returns v, w2) ->
  let calls := (trace st ++ Call (_wakeup TIMEOUT 300)
                  :: map (get_call kw) (update_params_keys ++ [Param.XMIT_POWER]))%list in
  _update_params dev kw st =
  if String.eqb (config_repr dev w2) (config_repr dev (world st0))
  then (Ok (fst r), State w2 calls (current_state st))
  else
    match respond dev (_driver_event DriverAsyncEvent.CONFIG_CHANGE) w2 with
    | (Returns _, w3) =>
        (Ok (fst r),
         State w3 (calls ++ [Call (_driver_event DriverAsyncEvent.CONFIG_CHANGE)])
               (current_state st))
    | (Raises e, w3) =>
        (Raise e,
         State w3 (calls ++ [Call (_driver_event DriverAsyncEvent.CONFIG_CHANGE)])
               (current_state st))
    end.
Proof.
  intros Hwake Hloop Hlast. cbv zeta.
  pose proof Hloop as Hkey. apply update_params_loop_key in Hkey.
  change (snd r = Some Param.XMIT_POWER) in Hkey.
  pose proof Hloop as Ht. apply update_params_loop_trace in Ht.
  destruct Ht as [Htrace Hstate].
  unfold perform in Hwake.
  destruct (respond dev (_wakeup TIMEOUT 300) (world st)) as [[x|e] w0] eqn:Hw;
    [|discriminate].
  injection Hwake as _ <-. cbn [trace current_state world] in *.
  unfold _update_params, bind at 1, perform. rewrite Hw.
  unfold bind at 1, get_config. unfold bind at 1.
  cbn [world trace current_state]. rewrite Hloop, Hkey.
  unfold bind, perform. rewrite Hlast. cbn [world trace current_state].
  rewrite Htrace, Hstate.
  replace (((trace st ++ [Call (_wakeup TIMEOUT 300)])
              ++ map (get_call kw) update_params_keys)
             ++ [Call (_do_cmd_resp InstrumentCmds.GET
                         [AVal (VStr Param.XMIT_POWER)]
                         (Kwargs (timeout kw) (Some Prompt.COMMAND)))])%list
    with (trace st ++ Call (_wakeup TIMEOUT 300)
            :: map (get_call kw) (update_params_keys ++ [Param.XMIT_POWER]))%list
    by (rewrite map_app, <- !app_assoc; reflexivity).
  destruct (String.eqb (config_repr dev w2) (config_repr dev w0));
    [reflexivity|].
  cbn [world trace current_state].
  destruct (respond dev (_driver_event _) w2) as [[y|e] w3]; reflexivity.
Qed.

(** ** Applying the startup parameters *)

Variable _apply_params : M W pyval.

(** X19: outside COMMAND and AUTOSAMPLE [apply_startup_params] fails with
    InstrumentProtocolException before the instrument is touched. *)
Theorem apply_startup_params_wrong_state (st : state W) :
  current_state st <> ProtocolState.COMMAND ->
  current_state st <> ProtocolState.AUTOSAMPLE ->
  apply_startup_params dev _apply_params st
  = (Raise (Exn InstrumentProtocolException
                "Not in command or autosample state. Unable to apply startup params"),
     st).
Proof.
  intros Hc Ha. unfold apply_startup_params, bind, get_current_state.
  destruct (current_state st); try congruence; reflexivity.
Qed.

(** X20: in COMMAND or AUTOSAMPLE, when the probe finds the instrument at
    the command prompt, logging is neither stopped nor started: the
    parameters are applied right after the probe, and an exception of
    [_apply_params] is passed on. *)
Theorem apply_startup_params_at_prompt (st st1 : state W) :
  current_state st = ProtocolState.COMMAND \/
  current_state st = ProtocolState.AUTOSAMPLE ->
  _is_logging dev (AVal (VInt TIMEOUT)) st = (Ok (VBool false), st1) ->
  apply_startup_params dev _apply_params st =
  match _apply_params st1 with
  | (Ok _, st2) => (Ok tt, st2)
  | (Raise e, st2) => (Raise e, st2)
  end.
Proof.
  intros Hst Hprobe.
  unfold apply_startup_params, bind at 1, get_current_state.
  replace (negb (state_eqb (current_state st) ProtocolState.COMMAND)
           && negb (state_eqb (current_state st) ProtocolState.AUTOSAMPLE))
    with false by (destruct Hst as [-> | ->]; reflexivity).
  unfold bind at 1. rewrite Hprobe. cbn [truthy].
  unfold bind, try_finally, try_except, ret.
  destruct (_apply_params st1) as [[v|e] st2]; [reflexivity|].
  destruct (is_Exception e); reflexivity.
Qed.

(** X21: in COMMAND or AUTOSAMPLE, when the probe finds the instrument
    logging, logging is stopped, the parameters are applied, and
    [_start_logging] runs whatever the two did; an exception of the
    restart is the one raised, otherwise the exception of stopping or
    applying, if any. *)
Theorem apply_startup_params_while_logging (st st1 st2 st3 : state W)
    (r1 r2 : result pyval) :
  current_state st = ProtocolState.COMMAND \/
  current_state st = ProtocolState.AUTOSAMPLE ->
  _is_logging dev (AVal (VInt TIMEOUT)) st = (Ok (VBool true), st1) ->
  (_stop_logging dev (AVal (VInt TIMEOUT)) ;; _apply_params) st1 = (r1, st2) ->
  _start_logging dev TIMEOUT st2 = (r2, st3) ->
  apply_startup_params dev _apply_params st
  = (match r2, r1 with
     | Raise e2, _ => Raise e2
     | Ok _, Raise e1 => Raise e1
     | Ok _, Ok _ => Ok tt
     end, st3).
Proof.
  intros Hst Hprobe Hbody Hrestart.
  unfold apply_startup_params, bind at 1, get_current_state.
  replace (negb (state_eqb (current_state st) ProtocolState.COMMAND)
           && negb (state_eqb (current_state st) ProtocolState.AUTOSAMPLE))
    with false by (destruct Hst as [-> | ->]; reflexivity).
  unfold bind at 1. rewrite Hprobe. cbn [truthy].
  unfold bind in Hbody.
  unfold bind, try_finally, try_except, ret.
  destruct (_stop_logging dev (AVal (VInt TIMEOUT)) st1) as [[x|e] s] eqn:Hstop.
  - rewrite Hbody. destruct r1 as [y|e1].
    + rewrite Hrestart. destruct r2; reflexivity.
    + destruct (is_Exception e1); rewrite Hrestart; destruct r2; reflexivity.
  - injection Hbody as <- <-.
    destruct (is_Exception e); rewrite Hrestart; destruct r2; reflexivity.
Qed.

(** ** The state machine *)













End Generic.


Lemma send_break_without_socket_witness :
  _send_break no_socket (initial ProtocolState.AUTOSAMPLE)
  = (Raise (Exn UnboundLocalError
                "local variable 'sock' referenced before assignment"),
     State tt [Call socket_socket] ProtocolState.AUTOSAMPLE).
Proof.
  refine (@send_break_without_socket unit no_socket
            (initial ProtocolState.AUTOSAMPLE)
            (Exn socket_error "Too many open files") tt _ _);
    vm_compute; reflexivity.
Defined.

Lemma send_break_ignores_connect_error_witness :
  exists rest,
    trace (snd (_send_break unreachable_for_break
                            (initial ProtocolState.AUTOSAMPLE)))
    = ([] ++ [Call socket_socket;
              Call (socket_connect "10.180.80.178" 2102);
              Call (socket_send ("break 300" ++ NEWLINE))] ++ rest)%list.
Proof.
  refine (@send_break_ignores_connect_error unit unreachable_for_break
            (initial ProtocolState.AUTOSAMPLE) VNone
            (Exn socket_error "Connection refused") tt tt _ _ _);
    vm_compute; reflexivity.
Defined.

Lemma stop_logging_returns_at_prompt_witness :
  fst (_stop_logging at_command_prompt (AVal (VInt TIMEOUT))
         (initial ProtocolState.AUTOSAMPLE))
  = Ok (VBool true).
Proof.
  destruct (@stop_logging_returns_at_prompt unit at_command_prompt
              (AVal (VInt TIMEOUT))
              (initial ProtocolState.AUTOSAMPLE)
              (snd (_stop_logging at_command_prompt (AVal (VInt TIMEOUT))
                      (initial ProtocolState.AUTOSAMPLE)))
              (VBool true)) as [_ _].
  - vm_compute. reflexivity.
  - vm_compute. reflexivity.
Defined.

Lemma start_logging_starts_iff_prompt_witness :
  In (start_deployment_call 10)
     (trace (snd (_start_logging at_command_prompt 10
                    (initial ProtocolState.COMMAND)))).
Proof.
  destruct (@start_logging_starts_iff_prompt unit at_command_prompt 10
              (initial ProtocolState.COMMAND) (VStr Prompt.COMMAND) tt)
    as (new & Htrace & Hiff & _).
  - vm_compute. reflexivity.
  - rewrite Htrace. apply in_or_app. right. apply Hiff. reflexivity.
Defined.

Lemma interrupting_handler_outcome_witness :
  fst (_handler_autosample_get_configuration at_command_prompt [] no_kwargs
         (initial ProtocolState.AUTOSAMPLE))
  = Ok (None, VPair VNone (VStr "ok")).
Proof.
  refine (f_equal fst
            (@interrupting_handler_outcome unit at_command_prompt
               ProtocolEvent.GET_CONFIGURATION
               (autosample_get_configuration_try at_command_prompt)
               (_handler_autosample_get_configuration at_command_prompt)
               [] no_kwargs (initial ProtocolState.AUTOSAMPLE)
               (snd (autosample_get_configuration_try at_command_prompt []
                       no_kwargs (initial ProtocolState.AUTOSAMPLE)))
               (snd (_handler_autosample_get_configuration at_command_prompt []
                       no_kwargs (initial ProtocolState.AUTOSAMPLE)))
               (Ok (VStr "ok")) (VBool true) eq_refl eq_refl _ _));
    vm_compute; reflexivity.
Defined.

Lemma interrupting_events_keep_autosample_witness :
  current_state
    (snd (on_event calibration_and_restart_fail ProtocolEvent.GET_CALIBRATION
                   [] no_kwargs (initial ProtocolState.AUTOSAMPLE)))
  = ProtocolState.AUTOSAMPLE.
Proof.
  exact (@interrupting_events_keep_autosample unit calibration_and_restart_fail
           ProtocolEvent.GET_CALIBRATION
           (autosample_get_calibration_try calibration_and_restart_fail)
           [] no_kwargs (initial ProtocolState.AUTOSAMPLE) eq_refl eq_refl).
Defined.

Lemma set_params_aborts_on_failure_witness :
  _set_params (set_fails "WP")
              [ADict [("WN", VInt 30); ("WP", VInt 1); ("WS", VInt 800)];
               AVal (VBool false)]
              no_kwargs (initial ProtocolState.COMMAND)
  = (Raise (Exn InstrumentParameterException "Set command failed"),
     State tt [set_call no_kwargs ("WN", VInt 30);
               set_call no_kwargs ("WP", VInt 1)]
           ProtocolState.COMMAND).
Proof.
  refine (@set_params_aborts_on_failure unit (set_fails "WP")
            [("WN", VInt 30); ("WP", VInt 1); ("WS", VInt 800)]
            [("WN", VInt 30)] [("WS", VInt 800)] "WP" (VInt 1)
            (AVal (VBool false)) no_kwargs (initial ProtocolState.COMMAND)
            (State tt [set_call no_kwargs ("WN", VInt 30)] ProtocolState.COMMAND)
            (Some VNone) _ tt _ _ _ _);
    vm_compute; reflexivity.
Defined.

Lemma set_params_empty_map_witness :
  fst (_set_params at_command_prompt [ADict []; AVal (VBool false)] no_kwargs
                   (initial ProtocolState.COMMAND))
  = Raise (Exn UnboundLocalError
               "local variable 'result' referenced before assignment").
Proof.
  refine (f_equal fst
            (@set_params_empty_map unit at_command_prompt (AVal (VBool false))
               no_kwargs (initial ProtocolState.COMMAND)
               (snd (_update_params at_command_prompt no_kwargs
                       (initial ProtocolState.COMMAND)))
               (match fst (_update_params at_command_prompt no_kwargs
                                 (initial ProtocolState.COMMAND)) with
                | Ok s => s
                | Raise _ => ""
                end)
               _)).
  vm_compute. reflexivity.
Defined.

Lemma set_params_then_refresh_witness :
  fst (_set_params at_command_prompt
                   [ADict [("WN", VInt 30); ("WP", VInt 1)]; AVal (VBool false)]
                   no_kwargs (initial ProtocolState.COMMAND))
  = Ok (VStr "ok").
Proof.
  destruct (@set_params_then_refresh unit at_command_prompt
              [("WN", VInt 30); ("WP", VInt 1)] (AVal (VBool false)) no_kwargs
              (initial ProtocolState.COMMAND)
              (State tt [set_call no_kwargs ("WN", VInt 30);
                         set_call no_kwargs ("WP", VInt 1)]
                     ProtocolState.COMMAND)
              (snd (_update_params at_command_prompt no_kwargs
                      (State tt [set_call no_kwargs ("WN", VInt 30);
                                 set_call no_kwargs ("WP", VInt 1)]
                             ProtocolState.COMMAND)))
              (Some (VStr "ok"))
              (match fst (_update_params at_command_prompt no_kwargs
                                (initial ProtocolState.COMMAND)) with
               | Ok s => s
               | Raise _ => ""
               end))
    as (r & Hr & Hset & _).
  - vm_compute. reflexivity.
  - discriminate.
  - vm_compute. reflexivity.
  - vm_compute. reflexivity.
  - injection Hr as <-. exact (f_equal fst Hset).
Defined.

Lemma command_set_rejects_bad_arguments_witness :
  exists msg,
    _handler_command_set at_command_prompt [AVal (VStr "WN=30")] no_kwargs
                         (initial ProtocolState.COMMAND)
    = (Raise (Exn InstrumentParameterException msg),
       initial ProtocolState.COMMAND).
Proof.
  exact (@command_set_rejects_bad_arguments unit at_command_prompt
           [AVal (VStr "WN=30")] no_kwargs (initial ProtocolState.COMMAND) I).
Defined.

Lemma update_params_complete_witness :
  length (trace (snd (_update_params at_command_prompt no_kwargs
                        (initial ProtocolState.COMMAND))))
  = 36.
Proof.
  pose proof (@update_params_complete unit at_command_prompt no_kwargs
                (initial ProtocolState.COMMAND)
                (State tt [Call (_wakeup TIMEOUT 300)] ProtocolState.COMMAND)
                (snd (update_params_loop at_command_prompt update_params_keys
                        (Kwargs None (Some Prompt.COMMAND)) "" None
                        (State tt [Call (_wakeup TIMEOUT 300)]
                               ProtocolState.COMMAND)))
                (VStr Prompt.COMMAND) (VStr "ok")
                (match fst (update_params_loop at_command_prompt
                              update_params_keys
                              (Kwargs None (Some Prompt.COMMAND)) "" None
                              (State tt [Call (_wakeup TIMEOUT 300)]
                                     ProtocolState.COMMAND)) with
                 | Ok r => r
                 | Raise _ => ("", None)
                 end)
                tt) as H.
  cbv zeta in H. rewrite H; vm_compute; reflexivity.
Defined.

Lemma apply_startup_params_wrong_state_witness :
  apply_startup_params at_command_prompt (ret VNone)
                       (initial ProtocolState.UNKNOWN)
  = (Raise (Exn InstrumentProtocolException
                "Not in command or autosample state. Unable to apply startup params"),
     initial ProtocolState.UNKNOWN).
Proof.
  apply (@apply_startup_params_wrong_state unit at_command_prompt (ret VNone)
           (initial ProtocolState.UNKNOWN)); discriminate.
Defined.

Lemma apply_startup_params_at_prompt_witness :
  apply_startup_params at_command_prompt (ret VNone)
                       (initial ProtocolState.COMMAND)
  = (Ok tt, State tt [Call (_wakeup TIMEOUT 300)] ProtocolState.COMMAND).
Proof.
  refine (@apply_startup_params_at_prompt unit at_command_prompt (ret VNone)
            (initial ProtocolState.COMMAND)
            (State tt [Call (_wakeup TIMEOUT 300)] ProtocolState.COMMAND)
            (or_introl eq_refl) _).
  vm_compute. reflexivity.
Defined.

Lemma apply_startup_params_while_logging_witness :
  fst (apply_startup_params at_error_prompt (ret VNone)
                            (initial ProtocolState.AUTOSAMPLE))
  = Raise (Exn InstrumentProtocolException "failed to stop logging").
Proof.
  refine (f_equal fst
            (@apply_startup_params_while_logging unit at_error_prompt
               (ret VNone) (initial ProtocolState.AUTOSAMPLE)
               (State tt [Call (_wakeup TIMEOUT 300)] ProtocolState.AUTOSAMPLE)
               (snd (bind (_stop_logging at_error_prompt (AVal (VInt TIMEOUT)))
                          (fun _ => ret VNone)
                          (State tt [Call (_wakeup TIMEOUT 300)]
                                 ProtocolState.AUTOSAMPLE)))
               (snd (apply_startup_params at_error_prompt (ret VNone)
                       (initial ProtocolState.AUTOSAMPLE)))
               (Raise (Exn InstrumentProtocolException "failed to stop logging"))
               (Ok (VBool true))
               (or_intror eq_refl) _ _ _));
    vm_compute; reflexivity.
Defined.

End HandlerProps.
